(** * TerraInsight wildfire-risk scoring: a shallow embedding

    The development follows [src/models/wildfire_risk_model.py] (class
    [WildfireRiskModel]) and the hourly projection of
    [src/models/api_server.py] ([simulate_fire_spread]).

    Numbers.  Feature values, scores of the regression function and radii
    are Python floats or ints; they are embedded as canonical rationals
    [Qc], so every arithmetic step is exact and two equal numbers are
    equal terms; a decimal literal stands for its decimal value, and no
    operation rounds or overflows.  The component scores of the four
    threshold ladders are Python ints and are embedded as [Z].

    State and exceptions.  [calculate_risk_score] returns the object after
    the call next to its outcome, a [result] that is a report or the
    exception raised.  The clock is an argument.

    Dictionaries.  A feature mapping is a Python [dict] from names to
    numbers: a [gmap string Qc].  [data.get(k, dflt)] is [get data k dflt]. *)

From Stdlib Require Import QArith Qcanon ZArith Lia Lqa.
From stdpp Require Import base numbers option list strings gmap fin_maps.

Local Open Scope string_scope.
Local Open Scope list_scope.
Local Open Scope Z_scope.

(** ** Numerals and dictionaries *)

Abbreviation Dict := (gmap string Qc).

(** An integer literal, read as a number. *)
Definition num (z : Z) : Qc := Qc_of_Z z.

(** A decimal literal [n / 10^k], e.g. [0.6 = dec 6 1]. *)
Definition dec (n : Z) (k : nat) : Qc := Q2Qc (n # Pos.of_nat (10 ^ k)).

(** [data.get(key, default)]. *)
Definition get (data : Dict) (key : string) (default : Qc) : Qc :=
  match data !! key with
  | Some v => v
  | None => default
  end.

(** Python's comparison operators on numbers, as booleans. *)
Definition gt (x y : Qc) : bool := bool_decide (y < x)%Qc.
Definition lt (x y : Qc) : bool := bool_decide (x < y)%Qc.
Definition ge (x y : Qc) : bool := bool_decide (y ≤ x)%Qc.
Definition le (x y : Qc) : bool := bool_decide (x ≤ y)%Qc.

(** ** The heuristic scorers *)

Definition _calculate_vegetation_risk (data : Dict) : Z :=
  let ndvi := get data "ndvi" (num 0) in
  let ndmi := get data "ndmi" (num 0) in
  let fuel_moisture := get data "fuel_moisture" (num 50) in
  if gt ndvi (dec 6 1) && lt fuel_moisture (num 30) then 80
  else if gt ndvi (dec 4 1) && lt fuel_moisture (num 40) then 60
  else if gt ndvi (dec 2 1) then 40
  else 20.

Definition _calculate_weather_risk (data : Dict) : Z :=
  let temp := get data "temperature" (num 20) in
  let humidity := get data "humidity" (num 50) in
  let wind_speed := get data "wind_speed" (num 0) in
  let days_since_rain := get data "days_since_rain" (num 0) in
  let weather_risk := 0 in
  let weather_risk :=
    if gt temp (num 30) then weather_risk + 25
    else if gt temp (num 25) then weather_risk + 15
    else weather_risk in
  let weather_risk :=
    if lt humidity (num 30) then weather_risk + 25
    else if lt humidity (num 40) then weather_risk + 15
    else weather_risk in
  let weather_risk :=
    if gt wind_speed (num 20) then weather_risk + 25
    else if gt wind_speed (num 10) then weather_risk + 15
    else weather_risk in
  let weather_risk :=
    if gt days_since_rain (num 14) then weather_risk + 25
    else if gt days_since_rain (num 7) then weather_risk + 15
    else weather_risk in
  Z.min weather_risk 100.

Definition _calculate_terrain_risk (data : Dict) : Z :=
  let slope := get data "slope" (num 0) in
  let aspect := get data "aspect" (num 0) in
  let terrain_risk := 0 in
  let terrain_risk :=
    if gt slope (num 30) then terrain_risk + 40
    else if gt slope (num 20) then terrain_risk + 25
    else if gt slope (num 10) then terrain_risk + 15
    else terrain_risk in
  let terrain_risk :=
    if le (num 135) aspect && le aspect (num 225) then terrain_risk + 20
    else terrain_risk in
  terrain_risk.

Definition _calculate_proximity_risk (data : Dict) : Z :=
  let distance_to_water := get data "distance_to_water" (num 10) in
  let distance_to_road := get data "distance_to_road" (num 1) in
  let population_density := get data "population_density" (num 100) in
  let proximity_risk := 0 in
  let proximity_risk :=
    if gt distance_to_water (num 5) then proximity_risk + 30
    else if gt distance_to_water (num 2) then proximity_risk + 20
    else proximity_risk in
  let proximity_risk :=
    if gt distance_to_road (num 5) then proximity_risk + 30
    else if gt distance_to_road (num 2) then proximity_risk + 20
    else proximity_risk in
  let proximity_risk :=
    if gt population_density (num 1000) then proximity_risk + 20
    else proximity_risk in
  Z.min proximity_risk 100.

Definition _get_risk_level (risk_score : Qc) : string :=
  if ge risk_score (num 80) then "EXTREME"
  else if ge risk_score (num 60) then "HIGH"
  else if ge risk_score (num 40) then "MODERATE"
  else if ge risk_score (num 20) then "LOW"
  else "MINIMAL".

(** ** Recommendations *)

Record Recommendation := {
  priority : string;
  action : string;
  description : string;
  estimated_cost : Z;
  risk_reduction : Z
}.

Definition vegetation_management : Recommendation := {|
  priority := "HIGH";
  action := "Vegetation Management";
  description := "Create defensible space by clearing vegetation within 30 feet of structures";
  estimated_cost := 2500;
  risk_reduction := 15
|}.

Definition install_sprinkler_system : Recommendation := {|
  priority := "HIGH";
  action := "Install Sprinkler System";
  description := "Install rooftop sprinkler system for ember protection";
  estimated_cost := 5000;
  risk_reduction := 20
|}.

Definition create_fuel_breaks : Recommendation := {|
  priority := "MEDIUM";
  action := "Create Fuel Breaks";
  description := "Establish fuel breaks on steep slopes to slow fire spread";
  estimated_cost := 3500;
  risk_reduction := 10
|}.

Definition emergency_planning : Recommendation := {|
  priority := "MEDIUM";
  action := "Emergency Planning";
  description := "Develop and practice evacuation plan with multiple routes";
  estimated_cost := 0;
  risk_reduction := 5
|}.

(** [recommendations.append(r)] on the list built so far. *)
Definition append {A} (l : list A) (x : A) : list A := l ++ [x].

Definition _generate_recommendations
    (risk_score veg_risk weather_risk terrain_risk : Qc) : list Recommendation :=
  let recommendations := [] in
  let recommendations :=
    if gt veg_risk (num 60) then append recommendations vegetation_management
    else recommendations in
  let recommendations :=
    if gt risk_score (num 70) then append recommendations install_sprinkler_system
    else recommendations in
  let recommendations :=
    if gt terrain_risk (num 50) then append recommendations create_fuel_breaks
    else recommendations in
  append recommendations emergency_planning.

(** ** Exceptions *)

Inductive exn :=
  | ZeroDivisionError
  | IndexError
  | ValueError
  | AttributeError
  | HTTPException (status_code : Z).

Inductive result (A : Type) :=
  | Ok (a : A)
  | Raise (e : exn).
Arguments Ok {A} a.
Arguments Raise {A} e.

(** ** The single-shot spread estimate of the risk report *)

Record FireSpread := {
  spread_rate_kmh : Qc;
  primary_direction : Qc;
  time_to_property_minutes : Qc;
  evacuation_time_needed : Z;
  safe_zones : list string
}.

(** The rate computed by [_simulate_fire_spread] before it divides by it. *)
Definition single_shot_rate (data : Dict) : Qc :=
  let wind_speed := get data "wind_speed" (num 10) in
  let slope := get data "slope" (num 0) in
  let base_spread_rate := dec 5 1 in
  let wind_factor := (1 + wind_speed / num 20)%Qc in
  let slope_factor := (1 + slope / num 30)%Qc in
  (base_spread_rate * wind_factor * slope_factor)%Qc.

(** Python's true division: a zero divisor raises. *)
Definition truediv (x y : Qc) : result Qc :=
  if bool_decide (y = 0%Qc) then Raise ZeroDivisionError else Ok (x / y)%Qc.

Definition _simulate_fire_spread (data : Dict) : result FireSpread :=
  let wind_direction := get data "wind_direction" (num 0) in
  let spread_rate := single_shot_rate data in
  match truediv (num 60) spread_rate with
  | Raise e => Raise e
  | Ok minutes =>
      Ok {| spread_rate_kmh := spread_rate;
            primary_direction := wind_direction;
            time_to_property_minutes := minutes;
            evacuation_time_needed := 30;
            safe_zones := ["North"; "Northeast"] |}
  end.

(** ** The hourly projection of the API server *)

Record SpreadSample := {
  hour : Z;
  radius_km : Qc;
  area_hectares : Qc;
  perimeter_km : Qc
}.

(** The response of the endpoint; its [simulation_id], a clock reading, is
    left out. *)
Record Simulation := {
  start_point : Dict;
  spread_patterns : list SpreadSample;
  total_area_hectares : Qc;
  conditions_weather : Dict;
  conditions_terrain : Dict
}.

(** The rate recomputed in every iteration of the loop. *)
Definition hourly_spread_rate (weather_conditions terrain_data : Dict) : Qc :=
  let wind_factor := (get weather_conditions "wind_speed" (num 10) / num 10)%Qc in
  let slope_factor := (get terrain_data "slope" (num 10) / num 20)%Qc in
  (dec 5 1 * (1 + wind_factor + slope_factor))%Qc.

(** One iteration of [for hour in range(hours)], on the loop state
    [(current_radius, spread_patterns)].  The arithmetic is exact: the
    rounding of the float additions and the OverflowError of [**] on a
    radius beyond about 1e154 are left out. *)
Definition spread_iteration (weather_conditions terrain_data : Dict)
    (st : Qc * list SpreadSample) (hour : Z) : Qc * list SpreadSample :=
  let spread_rate := hourly_spread_rate weather_conditions terrain_data in
  let current_radius := (st.1 + spread_rate)%Qc in
  (current_radius,
   append st.2
     {| hour := hour;
        radius_km := current_radius;
        area_hectares := (dec 314159 5 * (current_radius * current_radius) * num 100)%Qc;
        perimeter_km := (num 2 * dec 314159 5 * current_radius)%Qc |}).

(** [range(hours)]: empty when [hours <= 0]. *)
Definition range (hours : Z) : list Z := seqZ 0 hours.

Definition spread_loop (weather_conditions terrain_data : Dict) (hours : Z)
    : Qc * list SpreadSample :=
  foldl (spread_iteration weather_conditions terrain_data) (num 0, []) (range hours).

(** [spread_patterns[-1]] raises [IndexError] on the empty list; the
    handler turns any exception into an HTTP 500. *)
Definition simulate_fire_spread (start weather_conditions terrain_data : Dict)
    (hours : Z) : result Simulation :=
  let spread_patterns := (spread_loop weather_conditions terrain_data hours).2 in
  match last spread_patterns with
  | None => Raise (HTTPException 500)
  | Some s =>
      Ok {| start_point := start;
            spread_patterns := spread_patterns;
            total_area_hectares := area_hectares s;
            conditions_weather := weather_conditions;
            conditions_terrain := terrain_data |}
  end.

(** ** The trained model and its normalization transform *)

(** The fifteen names of [self.feature_names], in training order. *)
Definition feature_names : list string :=
  [ "ndvi"; "ndmi"; "temperature"; "humidity"; "wind_speed";
    "slope"; "aspect"; "elevation"; "distance_to_road";
    "distance_to_water"; "fuel_moisture"; "drought_index";
    "days_since_rain"; "population_density"; "historical_fires" ].

(** scikit-learn's [StandardScaler], by the attributes the object holds.
    [StandardScaler()] holds none; [partial_fit] sets [n_samples_seen_],
    [mean_], [var_] and [scale_] together; [load_model] assigns [mean_] and
    [scale_] only; a [_reset] that fails after deleting [scale_] leaves
    [mean_] alone.  The methods below map these four states to each other,
    so an object built by [__init__] is always in one of them. *)
Inductive StandardScaler :=
  | Unfitted
  | Loaded (mean scale : list Qc)
  | MeanOnly (mean : list Qc)
  | Fitted (n_samples_seen : Z) (mean var scale : list Qc).

(** The attributes, [None] when the object does not have them. *)
Definition n_samples_seen_ (s : StandardScaler) : option Z :=
  match s with
  | Fitted n _ _ _ => Some n
  | _ => None
  end.

Definition mean_ (s : StandardScaler) : option (list Qc) :=
  match s with
  | Unfitted => None
  | Loaded mean _ | MeanOnly mean | Fitted _ mean _ _ => Some mean
  end.

Definition var_ (s : StandardScaler) : option (list Qc) :=
  match s with
  | Fitted _ _ var _ => Some var
  | _ => None
  end.

Definition scale_ (s : StandardScaler) : option (list Qc) :=
  match s with
  | Loaded _ scale | Fitted _ _ _ scale => Some scale
  | _ => None
  end.

(** The object state of [WildfireRiskModel]: [model] is the network's
    output for one input row, [scaler] the normalization transform. *)
Record WildfireRiskModel := {
  model : list Qc → Qc;
  scaler : StandardScaler
}.

Definition total (l : list Qc) : Qc := foldr Qcplus 0%Qc l.

Definition average (l : list Qc) : Qc := (total l / num (Z.of_nat (length l)))%Qc.

Definition variance (l : list Qc) : Qc :=
  let m := average l in
  average (map (λ x, (x - m) * (x - m))%Qc l).

(** Column [j] of a sample matrix given by rows. *)
Definition column (X : list (list Qc)) (j : nat) : list Qc :=
  map (λ row, default 0%Qc (row !! j)) X.

Definition n_features (X : list (list Qc)) : nat :=
  match X with
  | [] => 0%nat
  | row :: _ => length row
  end.

(** [keras.Model.predict] on a batch: one output row, of one entry, per
    input row. *)
Definition predict (self : WildfireRiskModel) (X : list (list Qc)) : list (list Qc) :=
  map (λ row, [model self row]) X.

(** [a[0][0]]. *)
Definition item_0_0 (a : list (list Qc)) : result Qc :=
  match a !! 0%nat ≫= (.!! 0%nat) with
  | Some x => Ok x
  | None => Raise IndexError
  end.

Record ComponentScores := {
  vegetation_risk : Z;
  weather_risk : Z;
  terrain_risk : Z;
  proximity_risk : Z
}.

Record RiskReport := {
  overall_risk_score : Qc;
  risk_level : string;
  component_scores : ComponentScores;
  recommendations : list Recommendation;
  fire_spread_simulation : FireSpread;
  confidence_score : Qc;
  assessment_timestamp : string
}.

(** [StandardScaler.transform]: [(x - mean_) / scale_], column by column. *)
Definition transform (s : StandardScaler) (X : list (list Qc))
    : result (list (list Qc)) :=
  match mean_ s, scale_ s with
  | Some mean, Some scale =>
      Ok (map (λ row, zip_with (λ x ms, ((x - ms.1) / ms.2)%Qc) row (zip mean scale)) X)
  | _, _ => Raise AttributeError
  end.

(** The feature vector read in the first loop of [calculate_risk_score]. *)
Definition extract_features (property_data : Dict) : list Qc :=
  map (λ feature_name, get property_data feature_name (num 0)) feature_names.

Section Inference.

(** The square root of the numeric library, used only for the scale of a
    column that is not constant. *)
Variable sqrt : Qc → Qc.

(** A constant column (variance zero) gets scale one. *)
Definition scale_of_variance (v : Qc) : Qc :=
  if bool_decide (v = 0%Qc) then 1%Qc else sqrt v.

(** [StandardScaler._reset]: when the object has [scale_] it deletes
    [scale_], [n_samples_seen_], [mean_] and [var_] in this order, and the
    first [del] of a missing attribute raises; the scaler is returned as the
    deletions left it. *)
Definition _reset (s : StandardScaler) : StandardScaler * result unit :=
  match s with
  | Unfitted => (Unfitted, Ok tt)
  | MeanOnly mean => (MeanOnly mean, Ok tt)
  | Loaded mean _ => (MeanOnly mean, Raise AttributeError)
  | Fitted _ _ _ _ => (Unfitted, Ok tt)
  end.

(** [StandardScaler.partial_fit] on an object without [scale_] and
    [n_samples_seen_], as [_reset] leaves it: a [mean_] still there is
    overwritten; the count, and per column the mean, the variance and the
    standard deviation of the samples. *)
Definition partial_fit (X : list (list Qc)) : result StandardScaler :=
  match X with
  | [] => Raise ValueError
  | _ =>
      let columns := map (column X) (seq 0 (n_features X)) in
      Ok (Fitted (Z.of_nat (length X))
            (map average columns)
            (map variance columns)
            (map (λ c, scale_of_variance (variance c)) columns))
  end.

(** [StandardScaler.fit]: [_reset], then [partial_fit]. *)
Definition fit (s : StandardScaler) (X : list (list Qc))
    : StandardScaler * result unit :=
  match _reset s with
  | (s, Raise e) => (s, Raise e)
  | (s, Ok _) =>
      match partial_fit X with
      | Raise e => (s, Raise e)
      | Ok s => (s, Ok tt)
      end
  end.

(** [fit_transform]: the scaler after [fit], and the transformed samples
    or the exception. *)
Definition fit_transform (s : StandardScaler) (X : list (list Qc))
    : StandardScaler * result (list (list Qc)) :=
  match fit s X with
  | (s, Raise e) => (s, Raise e)
  | (s, Ok _) => (s, transform s X)
  end.

(** [calculate_risk_score]: the object after the call, and the report or
    the exception re-raised by the handler.  [now] is the clock reading
    used for the timestamp. *)
Definition calculate_risk_score (self : WildfireRiskModel) (now : string)
    (property_data : Dict) : WildfireRiskModel * result RiskReport :=
  let features := extract_features property_data in
  let features_array := [features] in
  match fit_transform (scaler self) features_array with
  | (scaler', Raise e) => ({| model := model self; scaler := scaler' |}, Raise e)
  | (scaler', Ok features_normalized) =>
      let self := {| model := model self; scaler := scaler' |} in
      match item_0_0 (predict self features_normalized) with
      | Raise e => (self, Raise e)
      | Ok risk_score =>
          let vegetation_risk := _calculate_vegetation_risk property_data in
          let weather_risk := _calculate_weather_risk property_data in
          let terrain_risk := _calculate_terrain_risk property_data in
          let proximity_risk := _calculate_proximity_risk property_data in
          let recommendations :=
            _generate_recommendations risk_score (num vegetation_risk)
              (num weather_risk) (num terrain_risk) in
          match _simulate_fire_spread property_data with
          | Raise e => (self, Raise e)
          | Ok fire_spread =>
              (self,
               Ok {| overall_risk_score := risk_score;
                     risk_level := _get_risk_level risk_score;
                     component_scores :=
                       {| vegetation_risk := vegetation_risk;
                          weather_risk := weather_risk;
                          terrain_risk := terrain_risk;
                          proximity_risk := proximity_risk |};
                     recommendations := recommendations;
                     fire_spread_simulation := fire_spread;
                     confidence_score := dec 85 2;
                     assessment_timestamp := now |})
          end
      end
  end.

End Inference.

(** ** Persistence *)

(** What [save_model] writes: the network and the scaler parameters. *)
Record Artifact := {
  h5 : list Qc → Qc;
  scaler_params_mean : list Qc;
  scaler_params_scale : list Qc
}.

(** Reading [mean_] or [scale_] of a scaler that does not have it raises. *)
Definition save_model (self : WildfireRiskModel) : result Artifact :=
  match mean_ (scaler self), scale_ (scaler self) with
  | Some mean, Some scale =>
      Ok {| h5 := model self; scaler_params_mean := mean; scaler_params_scale := scale |}
  | _, _ => Raise AttributeError
  end.

(** Assigning [mean_] and [scale_]: the other attributes stay as they are. *)
Definition set_mean_scale (s : StandardScaler) (mean scale : list Qc)
    : StandardScaler :=
  match s with
  | Unfitted | Loaded _ _ | MeanOnly _ => Loaded mean scale
  | Fitted n _ var _ => Fitted n mean var scale
  end.

(** [load_model] replaces the network and assigns the two saved scaler
    attributes on the scaler the object has. *)
Definition load_model (self : WildfireRiskModel) (a : Artifact) : WildfireRiskModel :=
  {| model := h5 a;
     scaler := set_mean_scale (scaler self)
                 (scaler_params_mean a) (scaler_params_scale a) |}.

(** [__init__]: a new scaler, then [load_model] when an artifact is stored
    at the model path, [build_model] otherwise.  [built] is the network
    [build_model] initialises; until one of the two runs the object has no
    network, so the record starts with [built], which [load_model]
    replaces. *)
Definition __init__ (stored : option Artifact) (built : list Qc → Qc)
    : WildfireRiskModel :=
  let self := {| model := built; scaler := Unfitted |} in
  match stored with
  | Some a => load_model self a
  | None => self
  end.

(** The feature mapping assembled by the [/calculate-risk] endpoint when the
    request carries no property data. *)
Definition property_features : Dict :=
  list_to_map
    [ ("ndvi", dec 65 2); ("ndmi", dec 45 2); ("temperature", dec 285 1);
      ("humidity", num 35); ("wind_speed", dec 152 1); ("wind_direction", num 225);
      ("slope", num 15); ("aspect", num 180); ("elevation", num 500);
      ("distance_to_road", num 2); ("distance_to_water", num 5);
      ("fuel_moisture", num 25); ("drought_index", dec 35 1);
      ("days_since_rain", num 12); ("population_density", num 150);
      ("historical_fires", num 2); ("vegetation_density", dec 7 1);
      ("distance_to_fire_station", num 5) ].

(** ** The ladders in the words of the specification

    These are compared with the scorers above; they are not used by them. *)

(** slope>30 → 40, >20 → 25, >10 → 15, first match only. *)
Definition slope_points (slope : Qc) : Z :=
  if gt slope (num 30) then 40
  else if gt slope (num 20) then 25
  else if gt slope (num 10) then 15
  else 0.

(** aspect in [135,225] → 20. *)
Definition aspect_bonus (aspect : Qc) : Z :=
  if le (num 135) aspect && le aspect (num 225) then 20 else 0.

(** distance>5 → 30, >2 → 20, for water and for road alike. *)
Definition distance_points (distance : Qc) : Z :=
  if gt distance (num 5) then 30
  else if gt distance (num 2) then 20
  else 0.

(** population_density>1000 → 20. *)
Definition density_points (population_density : Qc) : Z :=
  if gt population_density (num 1000) then 20 else 0.

(** A mapping extended with [defaults] for every key it lacks. *)
Definition extend (data defaults : Dict) : Dict := data ∪ defaults.

(** Zero for every name of the feature list. *)
Definition zero_defaults : Dict :=
  list_to_map ((λ k, (k, num 0)) <$> feature_names).

(** The defaults each scorer passes to [data.get]. *)
Definition vegetation_defaults : Dict :=
  list_to_map [("ndvi", num 0); ("ndmi", num 0); ("fuel_moisture", num 50)].
Definition weather_defaults : Dict :=
  list_to_map [("temperature", num 20); ("humidity", num 50);
               ("wind_speed", num 0); ("days_since_rain", num 0)].
Definition terrain_defaults : Dict :=
  list_to_map [("slope", num 0); ("aspect", num 0)].
Definition proximity_defaults : Dict :=
  list_to_map [("distance_to_water", num 10); ("distance_to_road", num 1);
               ("population_density", num 100)].

(** ** Notions used in the statements *)

(** What the specification lists of a recommendation. *)
Definition summary (r : Recommendation) : string * Z * Z :=
  (action r, estimated_cost r, risk_reduction r).

(** [[x]] when [b] holds, the empty list otherwise. *)
Definition when {A} (b : bool) (x : A) : list A := if b then [x] else [].

(** The sample appended in the iteration that reaches [radius]. *)
Definition sample_at (hour : Z) (radius : Qc) : SpreadSample :=
  {| hour := hour;
     radius_km := radius;
     area_hectares := (dec 314159 5 * (radius * radius) * num 100)%Qc;
     perimeter_km := (num 2 * dec 314159 5 * radius)%Qc |}.

(** Each sample's radius is at least the previous one's. *)
Definition nondecreasing_radius (samples : list SpreadSample) : Prop :=
  ∀ i s s', samples !! i = Some s → samples !! S i = Some s' →
    (radius_km s ≤ radius_km s')%Qc.

(** The conditions of the worked example: wind 10, slope 20. *)
Definition example_weather : Dict := {[ "wind_speed" := num 10 ]}.
Definition example_terrain : Dict := {[ "slope" := num 20 ]}.

(** A wind speed below zero, as a request may carry it. *)
Definition headwind : Dict := {[ "wind_speed" := num (-30) ]}.

(** The overall score of a call, if it returned a report. *)
Definition score_of (r : result RiskReport) : option Qc :=
  match r with
  | Ok report => Some (overall_risk_score report)
  | Raise _ => None
  end.

(** The fifteen-entry constant vectors. *)
Definition zeros : list Qc := replicate 15 (num 0).
Definition ones : list Qc := replicate 15 (num 1).

(** Whether [_reset], and with it [fit], raises on a scaler. *)
Definition reset_raises (s : StandardScaler) : bool :=
  match _reset s with
  | (_, Raise _) => true
  | (_, Ok _) => false
  end.

(** The scaler a fit on the one feature vector of a mapping leaves. *)
Definition refit (data : Dict) : StandardScaler :=
  Fitted 1 (extract_features data) zeros ones.

(** A scaler with all four attributes, as a training run leaves it. *)
Definition trained_scaler : StandardScaler :=
  Fitted 80 (replicate 15 (num 1)) (replicate 15 (num 4)) (replicate 15 (num 2)).

(** A network that adds up its inputs and the scaler parameters saved with
    it. *)
Definition trained_artifact : Artifact :=
  {| h5 := total;
     scaler_params_mean := replicate 15 (num 1);
     scaler_params_scale := replicate 15 (num 2) |}.

(** ** More ladders in the words of the specification *)

(** temperature>30 → 25, >25 → 15. *)
Definition heat_points (temp : Qc) : Z :=
  if gt temp (num 30) then 25
  else if gt temp (num 25) then 15
  else 0.

(** humidity<30 → 25, <40 → 15. *)
Definition dryness_points (humidity : Qc) : Z :=
  if lt humidity (num 30) then 25
  else if lt humidity (num 40) then 15
  else 0.

(** wind_speed>20 → 25, >10 → 15. *)
Definition wind_points (wind_speed : Qc) : Z :=
  if gt wind_speed (num 20) then 25
  else if gt wind_speed (num 10) then 15
  else 0.

(** days_since_rain>14 → 25, >7 → 15. *)
Definition drought_points (days_since_rain : Qc) : Z :=
  if gt days_since_rain (num 14) then 25
  else if gt days_since_rain (num 7) then 15
  else 0.

(** ** Notions used in the further statements *)

(** The keys read by the four scorers and by [_simulate_fire_spread]. *)
Definition report_keys : list string :=
  [ "ndvi"; "fuel_moisture"; "temperature"; "humidity"; "wind_speed";
    "days_since_rain"; "slope"; "aspect"; "distance_to_water";
    "distance_to_road"; "population_density"; "wind_direction" ].

(** The sum of a numeric field over a list of recommendations. *)
Definition sum_of (field : Recommendation → Z) (l : list Recommendation) : Z :=
  foldr (λ r acc, field r + acc) 0 l.

(** The tiers in rising order. *)
Definition tier_rank (risk_level : string) : nat :=
  if decide (risk_level = "EXTREME") then 4
  else if decide (risk_level = "HIGH") then 3
  else if decide (risk_level = "MODERATE") then 2
  else if decide (risk_level = "LOW") then 1
  else 0.

(** ** The risk endpoint of the API server *)

(** The request models of the endpoint, with the fields as numbers: a field
    the client leaves out has been filled with its default (0.5, 10.0, 5.0,
    false, 1.0) when the handler runs; a field sent as null is not
    covered. *)
Record PropertyData := {
  vegetation_density : Qc;
  slope_percentage : Qc;
  distance_to_fire_station : Qc;
  has_firebreak : bool;
  property_size_acres : Qc
}.

Record RiskCalculationRequest := {
  property_id : string;
  lat : Qc;
  lon : Qc;
  property_data : option PropertyData
}.

(** The report with the model version added to it. *)
Record RiskCalculationResponse := {
  risk_result : RiskReport;
  model_version : string
}.

(** The dictionary literal of [calculate_risk]. *)
Definition request_features (request : RiskCalculationRequest) : Dict :=
  list_to_map
    [ ("ndvi", dec 65 2); ("ndmi", dec 45 2); ("temperature", dec 285 1);
      ("humidity", num 35); ("wind_speed", dec 152 1); ("wind_direction", num 225);
      ("slope", match property_data request with
                | Some data => slope_percentage data
                | None => num 15
                end);
      ("aspect", num 180); ("elevation", num 500);
      ("distance_to_road", num 2); ("distance_to_water", num 5);
      ("fuel_moisture", num 25); ("drought_index", dec 35 1);
      ("days_since_rain", num 12); ("population_density", num 150);
      ("historical_fires", num 2);
      ("vegetation_density", match property_data request with
                             | Some data => vegetation_density data
                             | None => dec 7 1
                             end);
      ("distance_to_fire_station", match property_data request with
                                   | Some data => distance_to_fire_station data
                                   | None => num 5
                                   end) ].

Section Endpoint.

Variable sqrt : Qc → Qc.

(** [calculate_risk] on the process-wide [model]: the object after the
    request and the response, or the HTTP error the handler turns every
    exception into. *)
Definition calculate_risk (model : WildfireRiskModel) (now : string)
    (request : RiskCalculationRequest)
    : WildfireRiskModel * result RiskCalculationResponse :=
  let property_features := request_features request in
  match calculate_risk_score sqrt model now property_features with
  | (model, Ok risk_result) =>
      (model, Ok {| risk_result := risk_result; model_version := "1.0.0" |})
  | (model, Raise e) => (model, Raise (HTTPException 500))
  end.

End Endpoint.

(** The slope a request puts into the mapping. *)
Definition request_slope (request : RiskCalculationRequest) : Qc :=
  match property_data request with
  | Some data => slope_percentage data
  | None => num 15
  end.

(** * Properties *)

(** ** Order reasoning on numbers *)

Lemma gt_spec x y : gt x y = true ↔ (y < x)%Qc.
Proof. apply bool_decide_eq_true. Qed.

Lemma lt_spec x y : lt x y = true ↔ (x < y)%Qc.
Proof. apply bool_decide_eq_true. Qed.

Lemma ge_spec x y : ge x y = true ↔ (y ≤ x)%Qc.
Proof. apply bool_decide_eq_true. Qed.

Lemma le_spec x y : le x y = true ↔ (x ≤ y)%Qc.
Proof. apply bool_decide_eq_true. Qed.

(** Linear facts about [Qc] are sent to [lra] on the underlying fractions. *)
Ltac qc_order :=
  unfold gt, lt, ge, le in *;
  repeat case_bool_decide;
  unfold Qcle, Qclt in *; cbn [this num Qc_of_Z] in *; unfold inject_Z in *;
  try lra.

(** ** Risk tiers *)

(** C7: for every score [s], [_get_risk_level] answers EXTREME exactly when
    [s >= 80], HIGH exactly when [60 <= s < 80], MODERATE exactly when
    [40 <= s < 60], LOW exactly when [20 <= s < 40] and MINIMAL exactly
    when [s < 20]; the lower boundary of each tier belongs to the tier. *)
Theorem C7_risk_level_tiers (s : Qc) :
  (_get_risk_level s = "EXTREME" ↔ (num 80 ≤ s)%Qc) ∧
  (_get_risk_level s = "HIGH" ↔ (num 60 ≤ s < num 80)%Qc) ∧
  (_get_risk_level s = "MODERATE" ↔ (num 40 ≤ s < num 60)%Qc) ∧
  (_get_risk_level s = "LOW" ↔ (num 20 ≤ s < num 40)%Qc) ∧
  (_get_risk_level s = "MINIMAL" ↔ (s < num 20)%Qc).
Proof.
  unfold _get_risk_level, ge.
  repeat case_bool_decide; repeat split; intros;
    try discriminate; try reflexivity;
    repeat match goal with H : _ ∧ _ |- _ => destruct H end; qc_order.
Qed.

Example risk_level_at_80 : _get_risk_level (num 80) = "EXTREME".
Proof. reflexivity. Qed.

Example risk_level_below_80 : _get_risk_level (dec 799 1) = "HIGH".
Proof. reflexivity. Qed.

(** ** Terrain risk *)

Lemma terrain_risk_sum (data : Dict) :
  _calculate_terrain_risk data
  = slope_points (get data "slope" (num 0)) + aspect_bonus (get data "aspect" (num 0)).
Proof.
  unfold _calculate_terrain_risk, slope_points, aspect_bonus.
  repeat destruct (gt _ _); destruct (_ && _); reflexivity.
Qed.

Lemma slope_points_values (slope : Qc) : slope_points slope ∈ [0; 15; 25; 40].
Proof. unfold slope_points. repeat destruct (gt _ _); set_solver. Qed.

Lemma aspect_bonus_values (aspect : Qc) : aspect_bonus aspect ∈ [0; 20].
Proof. unfold aspect_bonus. destruct (_ && _); set_solver. Qed.

Lemma terrain_risk_range (data : Dict) : 0 ≤ _calculate_terrain_risk data ≤ 60.
Proof.
  rewrite terrain_risk_sum. unfold slope_points, aspect_bonus.
  repeat destruct (gt _ _); destruct (_ && _); lia.
Qed.

(** C10: [terrain_risk] is the slope contribution, one of 0, 15, 25, 40,
    plus the south-facing bonus, 0 or 20; its value is one of
    0, 15, 20, 25, 35, 40, 45, 60, so it never exceeds 60 and never 100. *)
Theorem C10_terrain_risk_finite_range (data : Dict) :
  let slope := get data "slope" (num 0) in
  let aspect := get data "aspect" (num 0) in
  _calculate_terrain_risk data = slope_points slope + aspect_bonus aspect
  ∧ slope_points slope ∈ [0; 15; 25; 40]
  ∧ aspect_bonus aspect ∈ [0; 20]
  ∧ _calculate_terrain_risk data ∈ [0; 15; 20; 25; 35; 40; 45; 60]
  ∧ _calculate_terrain_risk data ≤ 60
  ∧ _calculate_terrain_risk data ≤ 100.
Proof.
  cbv zeta. split; [apply terrain_risk_sum|].
  split; [apply slope_points_values|].
  split; [apply aspect_bonus_values|].
  split.
  - rewrite terrain_risk_sum. unfold slope_points, aspect_bonus.
    repeat destruct (gt _ _); destruct (_ && _); set_solver.
  - pose proof (terrain_risk_range data). lia.
Qed.

(** Every one of the eight values is reached. *)
Lemma terrain_risk_values_reached (v : Z) :
  v ∈ [0; 15; 20; 25; 35; 40; 45; 60] →
  ∃ slope aspect : Z,
    _calculate_terrain_risk {[ "slope" := num slope; "aspect" := num aspect ]} = v.
Proof.
  intros Hv. repeat (apply elem_of_cons in Hv as [->|Hv]).
  - by exists 0, 0.
  - by exists 15, 0.
  - by exists 0, 180.
  - by exists 25, 0.
  - by exists 15, 180.
  - by exists 35, 0.
  - by exists 25, 180.
  - by exists 35, 180.
  - by apply elem_of_nil in Hv.
Qed.

(** ** Ranges of the component scores *)

Lemma vegetation_risk_range (data : Dict) : 0 ≤ _calculate_vegetation_risk data ≤ 100.
Proof.
  unfold _calculate_vegetation_risk. cbv zeta.
  repeat destruct (_ && _); repeat destruct (gt _ _); lia.
Qed.

Lemma weather_risk_range (data : Dict) : 0 ≤ _calculate_weather_risk data ≤ 100.
Proof.
  unfold _calculate_weather_risk. cbv zeta.
  repeat destruct (gt _ _); repeat destruct (lt _ _); lia.
Qed.

Lemma proximity_risk_range (data : Dict) : 0 ≤ _calculate_proximity_risk data ≤ 100.
Proof.
  unfold _calculate_proximity_risk. cbv zeta.
  repeat destruct (gt _ _); lia.
Qed.

(** C4, as stated, fails: no feature mapping drives [terrain_risk] above 100. *)
Lemma C4_terrain_risk_never_above_100 :
  ¬ ∃ data : Dict, 100 < _calculate_terrain_risk data.
Proof. intros [data H]. pose proof (terrain_risk_range data). lia. Qed.

(** C4, amended: [terrain_risk] returns the raw sum of the slope points and
    the aspect bonus, without a clamp, and still lies in [0,60]; the three
    other component scores lie in [0,100]. *)
Theorem C4_component_score_ranges (data : Dict) :
  _calculate_terrain_risk data
  = slope_points (get data "slope" (num 0)) + aspect_bonus (get data "aspect" (num 0))
  ∧ 0 ≤ _calculate_terrain_risk data ≤ 60
  ∧ 0 ≤ _calculate_vegetation_risk data ≤ 100
  ∧ 0 ≤ _calculate_weather_risk data ≤ 100
  ∧ 0 ≤ _calculate_proximity_risk data ≤ 100.
Proof.
  split; [apply terrain_risk_sum|].
  split; [apply terrain_risk_range|].
  split; [apply vegetation_risk_range|].
  split; [apply weather_risk_range | apply proximity_risk_range].
Qed.

(** ** Proximity risk *)

Lemma get_lookup (data : Dict) key default v :
  data !! key = Some v → get data key default = v.
Proof. unfold get. by intros ->. Qed.

Lemma proximity_risk_ladder (data : Dict) :
  _calculate_proximity_risk data
  = Z.min (distance_points (get data "distance_to_water" (num 10))
           + distance_points (get data "distance_to_road" (num 1))
           + density_points (get data "population_density" (num 100))) 100.
Proof.
  unfold _calculate_proximity_risk, distance_points, density_points.
  repeat destruct (gt _ _); reflexivity.
Qed.

(** C2, as stated, fails: with the three values of the claim the score is
    not 100. *)
Lemma C2_proximity_risk_is_not_100 :
  _calculate_proximity_risk
    {[ "distance_to_water" := num 10; "distance_to_road" := num 10;
       "population_density" := num 2000 ]} ≠ 100.
Proof. vm_compute. discriminate. Qed.

(** C2, amended: the score follows the ladder water >5 → 30 else >2 → 20,
    road >5 → 30 else >2 → 20, density >1000 → 20, clamped to 100; with
    distance_to_water = 10, distance_to_road = 10 and
    population_density = 2000 it is 30 + 30 + 20 = 80, whatever the other
    features are, and the clamp leaves it as it is. *)
Theorem C2_proximity_risk_is_80 (data : Dict) :
  data !! "distance_to_water" = Some (num 10) →
  data !! "distance_to_road" = Some (num 10) →
  data !! "population_density" = Some (num 2000) →
  _calculate_proximity_risk data
  = Z.min (distance_points (num 10) + distance_points (num 10)
           + density_points (num 2000)) 100
  ∧ distance_points (num 10) = 30
  ∧ density_points (num 2000) = 20
  ∧ _calculate_proximity_risk data = 80.
Proof.
  intros Hw Hr Hp. rewrite proximity_risk_ladder.
  rewrite (get_lookup _ _ _ _ Hw), (get_lookup _ _ _ _ Hr), (get_lookup _ _ _ _ Hp).
  repeat split.
Qed.

Lemma C2_proximity_risk_is_80_witness :
  _calculate_proximity_risk
    {[ "distance_to_water" := num 10; "distance_to_road" := num 10;
       "population_density" := num 2000; "ndvi" := dec 7 1 ]} = 80.
Proof.
  apply (C2_proximity_risk_is_80
           {[ "distance_to_water" := num 10; "distance_to_road" := num 10;
              "population_density" := num 2000; "ndvi" := dec 7 1 ]});
    reflexivity.
Defined.

(** The ladder tops out at 80: the clamp to 100 never changes the sum. *)
Lemma proximity_risk_at_most_80 (data : Dict) : _calculate_proximity_risk data ≤ 80.
Proof.
  unfold _calculate_proximity_risk. cbv zeta.
  repeat destruct (gt _ _); lia.
Qed.

(** ** Missing keys *)

Lemma get_extend (data defaults : Dict) key default :
  get (extend data defaults) key default = get data key (get defaults key default).
Proof.
  unfold get, extend. rewrite lookup_union.
  destruct (data !! key), (defaults !! key); reflexivity.
Qed.

(** C5, as stated, fails: on the empty mapping three of the four scorers
    change when every absent key is set to 0. *)
Lemma C5_zero_extension_changes_scores :
  _calculate_weather_risk (extend ∅ zero_defaults) ≠ _calculate_weather_risk ∅
  ∧ _calculate_proximity_risk (extend ∅ zero_defaults) ≠ _calculate_proximity_risk ∅
  ∧ _calculate_vegetation_risk (extend {[ "ndvi" := dec 7 1 ]} zero_defaults)
    ≠ _calculate_vegetation_risk {[ "ndvi" := dec 7 1 ]}.
Proof. vm_compute. repeat split; discriminate. Qed.

(** C5, amended: each scorer treats a missing key as the default it passes
    to [get]: ndvi 0, ndmi 0, fuel_moisture 50; temperature 20,
    humidity 50, wind_speed 0, days_since_rain 0; slope 0, aspect 0;
    distance_to_water 10, distance_to_road 1, population_density 100.
    The score of a mapping equals the score of the mapping extended with
    these defaults for every absent key; for [terrain_risk], whose defaults
    are all 0, also with 0 for every absent key. *)
Theorem C5_missing_keys_take_scorer_defaults (data : Dict) :
  _calculate_vegetation_risk (extend data vegetation_defaults)
  = _calculate_vegetation_risk data
  ∧ _calculate_weather_risk (extend data weather_defaults)
    = _calculate_weather_risk data
  ∧ _calculate_terrain_risk (extend data terrain_defaults)
    = _calculate_terrain_risk data
  ∧ _calculate_proximity_risk (extend data proximity_defaults)
    = _calculate_proximity_risk data
  ∧ _calculate_terrain_risk (extend data zero_defaults)
    = _calculate_terrain_risk data.
Proof.
  unfold _calculate_vegetation_risk, _calculate_weather_risk,
    _calculate_terrain_risk, _calculate_proximity_risk.
  rewrite !get_extend. repeat split.
Qed.

Example default_fuel_moisture :
  _calculate_vegetation_risk {[ "ndvi" := dec 7 1 ]} = 40
  ∧ _calculate_vegetation_risk {[ "ndvi" := dec 7 1; "fuel_moisture" := num 0 ]} = 80.
Proof. split; reflexivity. Qed.

(** ** Recommendations *)

Lemma generate_recommendations_concat (risk_score veg_risk weather_risk terrain_risk : Qc) :
  _generate_recommendations risk_score veg_risk weather_risk terrain_risk
  = when (gt veg_risk (num 60)) vegetation_management
    ++ when (gt risk_score (num 70)) install_sprinkler_system
    ++ when (gt terrain_risk (num 50)) create_fuel_breaks
    ++ [emergency_planning].
Proof.
  unfold _generate_recommendations, append, when.
  repeat destruct (gt _ _); reflexivity.
Qed.

(** C8: the list is built in the order Vegetation Management (2500, 15)
    iff [vegetation_risk > 60], Install Sprinkler System (5000, 20) iff the
    overall score is above 70, Create Fuel Breaks (3500, 10) iff
    [terrain_risk > 50], and Emergency Planning (0, 5) always and last; it has
    between one and four entries; for overall 75, vegetation 70 and
    terrain 40 it is Vegetation Management, Install Sprinkler System,
    Emergency Planning. *)
Theorem C8_recommendation_order (risk_score veg_risk weather_risk terrain_risk : Qc) :
  let recs := _generate_recommendations risk_score veg_risk weather_risk terrain_risk in
  summary <$> recs
  = when (gt veg_risk (num 60)) ("Vegetation Management", 2500, 15)
    ++ when (gt risk_score (num 70)) ("Install Sprinkler System", 5000, 20)
    ++ when (gt terrain_risk (num 50)) ("Create Fuel Breaks", 3500, 10)
    ++ [("Emergency Planning", 0, 5)]
  ∧ ("Vegetation Management" ∈ action <$> recs ↔ (num 60 < veg_risk)%Qc)
  ∧ ("Install Sprinkler System" ∈ action <$> recs ↔ (num 70 < risk_score)%Qc)
  ∧ ("Create Fuel Breaks" ∈ action <$> recs ↔ (num 50 < terrain_risk)%Qc)
  ∧ last (summary <$> recs) = Some ("Emergency Planning", 0, 5)
  ∧ (1 ≤ length recs ≤ 4)%nat
  ∧ action <$> _generate_recommendations (num 75) (num 70) weather_risk (num 40)
    = ["Vegetation Management"; "Install Sprinkler System"; "Emergency Planning"].
Proof.
  cbv zeta. rewrite generate_recommendations_concat.
  rewrite <- !gt_spec.
  destruct (gt veg_risk _), (gt risk_score _), (gt terrain_risk _); cbn;
    rewrite ?elem_of_cons, ?elem_of_nil;
    repeat split; try lia; try reflexivity; try discriminate; try tauto.
  all: intros H; repeat (destruct H as [H|H]; [discriminate H|]); destruct H.
Qed.

(** ** The hourly projection *)

Lemma num_succ (n : nat) :
  num (Z.of_nat (S n)) = (num (Z.of_nat n) + num 1)%Qc.
Proof. unfold num. rewrite Nat2Z.inj_succ, <- Z.add_1_r. apply Z2Qc_inj_add. Qed.

Lemma spread_loop_nat (w t : Dict) (n : nat) :
  spread_loop w t (Z.of_nat n)
  = ((num (Z.of_nat n) * hourly_spread_rate w t)%Qc,
     (λ h, sample_at h (num (h + 1) * hourly_spread_rate w t)%Qc) <$> range (Z.of_nat n)).
Proof.
  unfold spread_loop, range. induction n as [|n IH].
  - rewrite seqZ_nil by done. cbn [foldl]. f_equal.
    change (Z.of_nat 0) with 0. unfold num. rewrite Z2Qc_inj_0. ring.
  - rewrite seqZ_S, foldl_snoc, IH, fmap_app.
    unfold spread_iteration, append. cbn [fst snd].
    assert ((num (Z.of_nat n) * hourly_spread_rate w t + hourly_spread_rate w t)%Qc
            = (num (Z.of_nat (S n)) * hourly_spread_rate w t)%Qc) as ->.
    { rewrite num_succ. unfold num at 3. rewrite Z2Qc_inj_1. ring. }
    rewrite Z.add_0_l, Nat2Z.inj_succ, <- Z.add_1_r. reflexivity.
Qed.

Lemma spread_patterns_closed_form (w t : Dict) (hours : Z) :
  (spread_loop w t hours).2
  = (λ h, sample_at h (num (h + 1) * hourly_spread_rate w t)%Qc) <$> range hours.
Proof.
  destruct (decide (hours ≤ 0)) as [Hle|Hgt].
  - unfold spread_loop, range. by rewrite seqZ_nil.
  - rewrite <- (Z2Nat.id hours) by lia. by rewrite spread_loop_nat.
Qed.

Lemma spread_patterns_lookup (w t : Dict) (hours : Z) (i : nat) :
  (spread_loop w t hours).2 !! i
  = if decide (Z.of_nat i < hours)
    then Some (sample_at (Z.of_nat i)
                 (num (Z.of_nat i + 1) * hourly_spread_rate w t)%Qc)
    else None.
Proof.
  rewrite spread_patterns_closed_form, list_lookup_fmap. unfold range.
  case_decide.
  - by rewrite lookup_seqZ_lt.
  - by rewrite lookup_seqZ_ge by lia.
Qed.

Lemma spread_patterns_length (w t : Dict) (hours : Z) :
  length (spread_loop w t hours).2 = Z.to_nat hours.
Proof.
  rewrite spread_patterns_closed_form, length_fmap. apply length_seqZ.
Qed.

Lemma simulate_fire_spread_returns (start w t : Dict) (hours : Z) :
  1 ≤ hours →
  ∃ sim, simulate_fire_spread start w t hours = Ok sim
         ∧ spread_patterns sim = (spread_loop w t hours).2.
Proof.
  intros Hh. unfold simulate_fire_spread.
  destruct (last _) as [s|] eqn:Hlast; [eauto|].
  apply last_None in Hlast. apply (f_equal length) in Hlast.
  rewrite spread_patterns_length in Hlast. cbn in Hlast. lia.
Qed.

Lemma simulate_fire_spread_raises (start w t : Dict) (hours : Z) :
  hours ≤ 0 → simulate_fire_spread start w t hours = Raise (HTTPException 500).
Proof.
  intros Hh. unfold simulate_fire_spread, spread_loop, range.
  by rewrite seqZ_nil.
Qed.

Lemma simulate_fire_spread_patterns (start w t : Dict) (hours : Z) sim :
  simulate_fire_spread start w t hours = Ok sim →
  spread_patterns sim = (spread_loop w t hours).2.
Proof.
  unfold simulate_fire_spread. destruct (last _); [|discriminate].
  by intros [= <-].
Qed.

(** Closed numbers are compared on their fractions. *)
Ltac qc_compute := apply Qc_is_canon; vm_compute; reflexivity.

Lemma Qc_this_neq (x y : Qc) : this x ≠ this y → x ≠ y.
Proof. congruence. Qed.

(** C3, as stated, fails: with wind 10 and slope 20 the rate is not 1.0 and
    the radii after hours 0 and 1 are not 1.0 and 2.0. *)
Lemma C3_rate_is_not_1 :
  hourly_spread_rate example_weather example_terrain ≠ num 1
  ∧ radius_km <$> (spread_loop example_weather example_terrain 2).2 !! 0%nat ≠ Some (num 1)
  ∧ radius_km <$> (spread_loop example_weather example_terrain 2).2 !! 1%nat ≠ Some (num 2).
Proof.
  split; [|split].
  - apply Qc_this_neq. vm_compute. discriminate.
  - intros [=].
  - intros [=].
Qed.

Lemma rate_wind_10_slope_20 (w t : Dict) :
  w !! "wind_speed" = Some (num 10) → t !! "slope" = Some (num 20) →
  hourly_spread_rate w t = dec 15 1.
Proof.
  intros Hw Ht. unfold hourly_spread_rate.
  rewrite (get_lookup _ _ _ _ Hw), (get_lookup _ _ _ _ Ht). qc_compute.
Qed.

(** C3, amended: with wind_speed = 10 and slope = 20 the rate of every hour
    is 0.5 * (1 + 1 + 1) = 1.5 km/h; starting from radius 0, the sample of
    hour [i] has radius [(i + 1) * 1.5], so 1.5 after hour 0 and 3.0 after
    hour 1, and each hour adds the rate to the radius. *)
Theorem C3_hourly_projection_rate (start w t : Dict) (hours : Z) :
  w !! "wind_speed" = Some (num 10) →
  t !! "slope" = Some (num 20) →
  let samples := (spread_loop w t hours).2 in
  hourly_spread_rate w t = dec 15 1
  ∧ (∀ i : nat, Z.of_nat i < hours →
       ∃ s, samples !! i = Some s ∧ hour s = Z.of_nat i
            ∧ radius_km s = (num (Z.of_nat i + 1) * dec 15 1)%Qc)
  ∧ (1 ≤ hours → radius_km <$> samples !! 0%nat = Some (dec 15 1))
  ∧ (2 ≤ hours → radius_km <$> samples !! 1%nat = Some (num 3))
  ∧ (∀ i s s', samples !! i = Some s → samples !! S i = Some s' →
       radius_km s' = (radius_km s + dec 15 1)%Qc)
  ∧ (1 ≤ hours →
       ∃ sim, simulate_fire_spread start w t hours = Ok sim
              ∧ spread_patterns sim = samples).
Proof.
  intros Hw Ht samples. subst samples.
  pose proof (rate_wind_10_slope_20 w t Hw Ht) as Hrate.
  split; [done|]. split; [|split; [|split; [|split]]].
  - intros i Hi. rewrite spread_patterns_lookup, decide_True by done.
    eexists. split; [done|]. by rewrite Hrate.
  - intros Hh. rewrite spread_patterns_lookup, decide_True by (cbn; lia).
    rewrite Hrate. cbn. f_equal. qc_compute.
  - intros Hh. rewrite spread_patterns_lookup, decide_True by (cbn; lia).
    rewrite Hrate. cbn. f_equal. qc_compute.
  - intros i s s'. rewrite !spread_patterns_lookup.
    repeat case_decide; try discriminate. intros [= <-] [= <-]. cbn.
    rewrite Hrate, Nat2Z.inj_succ, <- Z.add_1_r. unfold num.
    rewrite !Z2Qc_inj_add, Z2Qc_inj_1. ring.
  - apply simulate_fire_spread_returns.
Qed.

(** The example's own conditions meet the two lookups. *)
Lemma C3_hourly_projection_rate_witness :
  hourly_spread_rate example_weather example_terrain = dec 15 1.
Proof.
  exact (proj1 (C3_hourly_projection_rate ∅ example_weather example_terrain 2
                  eq_refl eq_refl)).
Defined.

(** ** Monotone radius *)

(** The radii are in order exactly when the rate is not negative, or there
    are fewer than two samples to compare. *)
Lemma nondecreasing_radius_step (w t : Dict) (hours : Z) :
  nondecreasing_radius (spread_loop w t hours).2
  ↔ (2 ≤ hours → (0 ≤ hourly_spread_rate w t)%Qc).
Proof.
  unfold nondecreasing_radius. split.
  - intros H Hh.
    pose proof (spread_patterns_lookup w t hours 0) as H0.
    pose proof (spread_patterns_lookup w t hours 1) as H1.
    rewrite decide_True in H0 by (cbn; lia).
    rewrite decide_True in H1 by (cbn; lia).
    specialize (H 0%nat _ _ H0 H1).
    cbn in H. apply (Qcplus_le_mono_l _ _ (num 1 * hourly_spread_rate w t)).
    rewrite Qcplus_0_r.
    replace (num 1 * hourly_spread_rate w t + hourly_spread_rate w t)%Qc
      with (num 2 * hourly_spread_rate w t)%Qc; [exact H|].
    unfold num. change 2 with (1 + 1). rewrite Z2Qc_inj_add, Z2Qc_inj_1. ring.
  - intros H i s s'. rewrite !spread_patterns_lookup.
    repeat case_decide; try discriminate. intros [= <-] [= <-]. cbn.
    assert (0 ≤ hourly_spread_rate w t)%Qc as Hr by (apply H; lia).
    rewrite Nat2Z.inj_succ, <- Z.add_1_r. unfold num.
    rewrite (Z2Qc_inj_add (_ + 1) 1), Z2Qc_inj_1, Qcmult_plus_distr_l, Qcmult_1_l.
    rewrite <- (Qcplus_0_r (Qc_of_Z _ * _)) at 1.
    by apply Qcplus_le_mono_l.
Qed.

(** Non-negative wind speed and slope give a non-negative rate. *)
Lemma hourly_spread_rate_nonneg (w t : Dict) :
  (0 ≤ get w "wind_speed" (num 10))%Qc →
  (0 ≤ get t "slope" (num 10))%Qc →
  (0 ≤ hourly_spread_rate w t)%Qc.
Proof.
  intros Hw Hs. unfold hourly_spread_rate.
  apply Qcmult_nonneg_nonneg; [done|].
  repeat apply Qcplus_nonneg_nonneg; [done| |];
    (apply Qcmult_nonneg_nonneg; [assumption|done]).
Qed.

(** C9, as stated, fails: against a wind speed of -30 the radius shrinks
    from the first hour to the second. *)
Lemma C9_headwind_shrinks_radius :
  ∃ sim, simulate_fire_spread ∅ headwind ∅ 2 = Ok sim
         ∧ ¬ nondecreasing_radius (spread_patterns sim).
Proof.
  destruct (simulate_fire_spread_returns ∅ headwind ∅ 2) as (sim & Hsim & Hp); [lia|].
  exists sim. split; [exact Hsim|]. rewrite Hp, nondecreasing_radius_step.
  intros H. specialize (H ltac:(lia)). revert H. vm_compute. intros H. by apply H.
Qed.

(** C9, amended: for every wind speed and slope whose hourly rate
    0.5 * (1 + wind_speed/10 + slope/20) is not negative, as it is for every
    non-negative wind speed and slope, and for every duration, each sample's
    radius is at least the previous one's; the projection is returned as
    soon as the duration is at least one hour. *)
Theorem C9_radius_nondecreasing (start w t : Dict) (hours : Z) :
  (0 ≤ hourly_spread_rate w t)%Qc →
  nondecreasing_radius (spread_loop w t hours).2
  ∧ (∀ sim, simulate_fire_spread start w t hours = Ok sim →
       nondecreasing_radius (spread_patterns sim))
  ∧ (1 ≤ hours → ∃ sim, simulate_fire_spread start w t hours = Ok sim).
Proof.
  intros Hr.
  assert (nondecreasing_radius (spread_loop w t hours).2) as Hmono
    by (by apply nondecreasing_radius_step).
  split; [exact Hmono|]. split.
  - intros sim Hsim. by rewrite (simulate_fire_spread_patterns _ _ _ _ _ Hsim).
  - intros Hh. destruct (simulate_fire_spread_returns start w t hours Hh) as (sim & ? & _).
    by exists sim.
Qed.

(** Wind 10 and slope 20 over three hours. *)
Lemma C9_radius_nondecreasing_witness :
  nondecreasing_radius (spread_loop example_weather example_terrain 3).2.
Proof.
  apply (C9_radius_nondecreasing ∅ example_weather example_terrain 3).
  vm_compute. discriminate.
Defined.

(** ** The per-call refit *)

Lemma average_singleton (x : Qc) : average [x] = x.
Proof.
  unfold average, total, num. cbn. change (Z.of_nat 1) with 1.
  rewrite Z2Qc_inj_1, Qcplus_0_r. apply (right_id _ Qcdiv).
Qed.

Lemma variance_singleton (x : Qc) : variance [x] = 0%Qc.
Proof. unfold variance. cbn. rewrite !average_singleton. ring. Qed.

Lemma columns_of_row (row : list Qc) :
  map (column [row]) (seq 0 (length row)) = map (λ x, [x]) row.
Proof.
  apply list_eq. intros i. rewrite !list_lookup_fmap.
  destruct (row !! i) as [x|] eqn:Hi.
  - rewrite lookup_seq_lt by (by eapply lookup_lt_Some).
    cbn. unfold column. cbn. by rewrite Hi.
  - rewrite lookup_seq_ge; [done|]. by apply lookup_ge_None.
Qed.


Section Refit.
Variable sqrt : Qc → Qc.

Lemma partial_fit_single_sample (row : list Qc) :
  partial_fit sqrt [row]
  = Ok (Fitted 1 row (replicate (length row) (num 0))
          (replicate (length row) (num 1))).
Proof.
  unfold partial_fit. cbn [n_features length]. rewrite columns_of_row, !map_map.
  change (Z.of_nat 1) with 1. do 2 f_equal.
  - induction row as [|x row IH]; [done|]. cbn. by rewrite average_singleton, IH.
  - induction row as [|x row IH]; [done|]. cbn.
    rewrite variance_singleton, IH. unfold num. by rewrite Z2Qc_inj_0.
  - induction row as [|x row IH]; [done|]. cbn.
    rewrite variance_singleton, IH. unfold scale_of_variance.
    rewrite bool_decide_eq_true_2 by done. unfold num. by rewrite Z2Qc_inj_1.
Qed.

Lemma transform_single_sample (n : Z) (row var : list Qc) :
  transform (Fitted n row var (replicate (length row) (num 1))) [row]
  = Ok [replicate (length row) (num 0)].
Proof.
  unfold transform. cbn. do 2 f_equal.
  induction row as [|x row IH]; [done|]. cbn. rewrite IH. f_equal.
  unfold Qcminus. rewrite Qcplus_opp_r. apply Qc_is_canon. reflexivity.
Qed.

Lemma fit_transform_single_sample (s : StandardScaler) (row : list Qc) :
  fit_transform sqrt s [row]
  = if reset_raises s then ((_reset s).1, Raise AttributeError)
    else (Fitted 1 row (replicate (length row) (num 0))
            (replicate (length row) (num 1)),
          Ok [replicate (length row) (num 0)]).
Proof.
  unfold fit_transform, fit, reset_raises.
  destruct s; cbn [_reset fst]; try reflexivity;
    by rewrite partial_fit_single_sample, transform_single_sample.
Qed.

Lemma extract_features_length (d : Dict) : length (extract_features d) = 15%nat.
Proof. reflexivity. Qed.

Lemma fit_transform_features (s : StandardScaler) (d : Dict) :
  fit_transform sqrt s [extract_features d]
  = if reset_raises s then ((_reset s).1, Raise AttributeError)
    else (refit d, Ok [zeros]).
Proof. by rewrite fit_transform_single_sample. Qed.

Lemma calculate_risk_score_state (self : WildfireRiskModel) now (d : Dict) :
  (calculate_risk_score sqrt self now d).1
  = {| model := model self;
       scaler := if reset_raises (scaler self) then (_reset (scaler self)).1
                 else refit d |}.
Proof.
  unfold calculate_risk_score. rewrite fit_transform_features.
  destruct (reset_raises (scaler self)); [done|]. cbn.
  by destruct (_simulate_fire_spread d).
Qed.

Lemma calculate_risk_score_score (self : WildfireRiskModel) now (d : Dict) :
  score_of (calculate_risk_score sqrt self now d).2
  = if reset_raises (scaler self) then None
    else if bool_decide (single_shot_rate d = 0%Qc) then None
    else Some (model self zeros).
Proof.
  unfold calculate_risk_score. rewrite fit_transform_features.
  destruct (reset_raises (scaler self)); [done|]. cbn.
  unfold _simulate_fire_spread, truediv.
  by destruct (bool_decide (single_shot_rate d = 0%Qc)).
Qed.

End Refit.

(** C1: for any two feature mappings, on the same network and whatever the
    scalers hold before the calls: when the refit on the single sample goes
    through it hands the network the same all-zero vector, so a call that
    returns a report returns the one score [network zeros], and two reports
    always carry the same [overall_risk_score].  A call yields no report
    when [_reset] raises on the scaler it finds, which does not depend on
    the mapping, or when the single-shot spread rate it divides by is
    zero. *)
Theorem C1_score_independent_of_features (sqrt : Qc → Qc) (network : list Qc → Qc)
    (scaler1 scaler2 : StandardScaler) (now1 now2 : string) (d1 d2 : Dict) :
  let self1 := {| model := network; scaler := scaler1 |} in
  let self2 := {| model := network; scaler := scaler2 |} in
  let r1 := (calculate_risk_score sqrt self1 now1 d1).2 in
  let r2 := (calculate_risk_score sqrt self2 now2 d2).2 in
  (fit_transform sqrt scaler1 [extract_features d1]).2
  = (if reset_raises scaler1 then Raise AttributeError else Ok [zeros])
  ∧ (fit_transform sqrt scaler2 [extract_features d2]).2
    = (if reset_raises scaler2 then Raise AttributeError else Ok [zeros])
  ∧ score_of r1
    = (if reset_raises scaler1 then None
       else if bool_decide (single_shot_rate d1 = 0%Qc) then None
       else Some (network zeros))
  ∧ score_of r2
    = (if reset_raises scaler2 then None
       else if bool_decide (single_shot_rate d2 = 0%Qc) then None
       else Some (network zeros))
  ∧ (∀ report1 report2, r1 = Ok report1 → r2 = Ok report2 →
       overall_risk_score report1 = overall_risk_score report2).
Proof.
  cbv zeta. split; [|split; [|split; [|split]]].
  - rewrite fit_transform_features. by destruct (reset_raises scaler1).
  - rewrite fit_transform_features. by destruct (reset_raises scaler2).
  - apply calculate_risk_score_score.
  - apply calculate_risk_score_score.
  - intros report1 report2 H1 H2.
    pose proof (calculate_risk_score_score sqrt
                  {| model := network; scaler := scaler1 |} now1 d1) as S1.
    pose proof (calculate_risk_score_score sqrt
                  {| model := network; scaler := scaler2 |} now2 d2) as S2.
    rewrite H1 in S1. rewrite H2 in S2. cbn in S1, S2.
    destruct (reset_raises scaler1), (reset_raises scaler2);
      repeat case_bool_decide; congruence.
Qed.

(** A newly built object on the endpoint's mapping, then the object that
    call left on the empty mapping. *)
Lemma C1_score_independent_of_features_witness :
  ∃ report1 report2,
    (calculate_risk_score (λ x, x) (__init__ None total) "t1" property_features).2
      = Ok report1
    ∧ (calculate_risk_score (λ x, x)
         {| model := total; scaler := refit property_features |} "t2" ∅).2
      = Ok report2
    ∧ overall_risk_score report1 = overall_risk_score report2.
Proof.
  eexists _, _. split; [reflexivity|]. split; [reflexivity|].
  exact (proj2 (proj2 (proj2 (proj2
    (C1_score_independent_of_features (λ x, x) total
       Unfitted (refit property_features)
       "t1" "t2" property_features ∅)))) _ _ eq_refl eq_refl).
Defined.

(** C6 fails on the code.  An object loaded from a stored artifact: its
    first [calculate_risk_score] raises in the scaler's [_reset] after
    [scale_] was deleted, so the loaded scale is gone and [save_model]
    fails; its second call returns a report and leaves the feature vector
    of the request as mean and ones as scale.  An object whose scaler holds
    all four attributes, as training leaves it: one call replaces them in
    the same way.  The network is untouched throughout. *)
Theorem C6_inference_refits_scaler (sqrt : Qc → Qc) :
  let self := __init__ (Some trained_artifact) total in
  let first := calculate_risk_score sqrt self "now" property_features in
  let second := calculate_risk_score sqrt first.1 "now" property_features in
  let trained := {| model := total; scaler := trained_scaler |} in
  let after := calculate_risk_score sqrt trained "now" property_features in
  scaler self = Loaded (replicate 15 (num 1)) (replicate 15 (num 2))
  ∧ save_model self = Ok trained_artifact
  ∧ first.2 = Raise AttributeError
  ∧ scaler first.1 = MeanOnly (replicate 15 (num 1))
  ∧ scale_ (scaler first.1) = None
  ∧ save_model first.1 = Raise AttributeError
  ∧ score_of second.2 = Some (total zeros)
  ∧ scaler second.1 = refit property_features
  ∧ mean_ (scaler second.1) ≠ mean_ (scaler self)
  ∧ save_model second.1 ≠ Ok trained_artifact
  ∧ model second.1 = model self
  ∧ score_of after.2 = Some (total zeros)
  ∧ scaler after.1 = refit property_features
  ∧ scaler after.1 ≠ scaler trained
  ∧ model after.1 = model trained.
Proof.
  cbv zeta.
  assert (bool_decide (single_shot_rate property_features = 0%Qc) = false) as Hrate.
  { apply bool_decide_eq_false_2. apply Qc_this_neq. vm_compute. discriminate. }
  rewrite !calculate_risk_score_state, !calculate_risk_score_score.
  cbn [__init__ load_model set_mean_scale scaler model reset_raises _reset fst snd
       trained_artifact scaler_params_mean scaler_params_scale h5].
  rewrite !Hrate.
  split; [done|]. split; [done|].
  split.
  { unfold calculate_risk_score. rewrite fit_transform_features. reflexivity. }
  split; [done|]. split; [done|]. split; [done|]. split; [done|]. split; [done|].
  split; [intros [=]|]. split; [intros [=]|]. split; [done|]. split; [done|].
  split; [done|]. split; [intros [=]|done].
Qed.

(** * Further properties of the scoring code *)

(** Decimal literals stay folded under [cbn]. *)
#[local] Arguments dec : simpl never.

(** Decimal literals are replaced by their fractions before [lra] runs. *)
Ltac qc_literals :=
  repeat match goal with
  | |- context [this (dec ?n ?k)] =>
      let v := eval vm_compute in (this (dec n k)) in
      change (this (dec n k)) with v
  | H : context [this (dec ?n ?k)] |- _ =>
      let v := eval vm_compute in (this (dec n k)) in
      change (this (dec n k)) with v in H
  end.

(** Membership in a list written out. *)
Ltac in_list :=
  solve [repeat first [apply list_elem_of_here | apply list_elem_of_further]].

Ltac qc_linear :=
  unfold gt, lt, ge, le in *;
  repeat case_bool_decide;
  unfold Qcle, Qclt in *; cbn [this num Qc_of_Z] in *; unfold inject_Z in *;
  qc_literals; try lra.

(** ** Vegetation risk *)

(** X1: the four tiers of [vegetation_risk], by first match. *)
Theorem vegetation_risk_tiers (data : Dict) :
  let ndvi := get data "ndvi" (num 0) in
  let fuel_moisture := get data "fuel_moisture" (num 50) in
  (_calculate_vegetation_risk data = 80
     ↔ (dec 6 1 < ndvi)%Qc ∧ (fuel_moisture < num 30)%Qc)
  ∧ (_calculate_vegetation_risk data = 60
     ↔ (dec 4 1 < ndvi)%Qc ∧ (fuel_moisture < num 40)%Qc
       ∧ ¬ ((dec 6 1 < ndvi)%Qc ∧ (fuel_moisture < num 30)%Qc))
  ∧ (_calculate_vegetation_risk data = 40
     ↔ (dec 2 1 < ndvi)%Qc
       ∧ ¬ ((dec 4 1 < ndvi)%Qc ∧ (fuel_moisture < num 40)%Qc))
  ∧ (_calculate_vegetation_risk data = 20 ↔ (ndvi ≤ dec 2 1)%Qc)
  ∧ _calculate_vegetation_risk data ∈ [20; 40; 60; 80].
Proof.
  cbv zeta. unfold _calculate_vegetation_risk.
  generalize (get data "ndvi" (num 0)) (get data "fuel_moisture" (num 50)).
  intros ndvi fm. cbv zeta. unfold gt, lt.
  repeat case_bool_decide; cbn [andb];
    (repeat split; intros;
     repeat match goal with H : _ ∧ _ |- _ => destruct H end;
     try discriminate; try reflexivity; try in_list;
     try (intros [? ?]); qc_linear).
Qed.

(** X2: more vegetation index and less fuel moisture never lower
    [vegetation_risk]. *)
Theorem vegetation_risk_monotone (d1 d2 : Dict) :
  (get d1 "ndvi" (num 0) ≤ get d2 "ndvi" (num 0))%Qc →
  (get d2 "fuel_moisture" (num 50) ≤ get d1 "fuel_moisture" (num 50))%Qc →
  _calculate_vegetation_risk d1 ≤ _calculate_vegetation_risk d2.
Proof.
  unfold _calculate_vegetation_risk.
  generalize (get d1 "ndvi" (num 0)) (get d1 "fuel_moisture" (num 50))
             (get d2 "ndvi" (num 0)) (get d2 "fuel_moisture" (num 50)).
  intros n1 f1 n2 f2 Hn Hf. cbv zeta. unfold gt, lt.
  repeat case_bool_decide; cbn [andb]; try lia; exfalso; qc_linear.
Qed.

Lemma vegetation_risk_monotone_witness :
  _calculate_vegetation_risk {[ "ndvi" := dec 3 1 ]}
  ≤ _calculate_vegetation_risk {[ "ndvi" := dec 7 1; "fuel_moisture" := num 20 ]}.
Proof.
  apply vegetation_risk_monotone; vm_compute; discriminate.
Defined.

(** ** Weather risk *)

Lemma weather_risk_sum (data : Dict) :
  _calculate_weather_risk data
  = heat_points (get data "temperature" (num 20))
    + dryness_points (get data "humidity" (num 50))
    + wind_points (get data "wind_speed" (num 0))
    + drought_points (get data "days_since_rain" (num 0)).
Proof.
  unfold _calculate_weather_risk, heat_points, dryness_points, wind_points,
    drought_points. cbv zeta.
  repeat destruct (gt _ _); repeat destruct (lt _ _); reflexivity.
Qed.

Lemma heat_points_monotone x y : (x ≤ y)%Qc → heat_points x ≤ heat_points y.
Proof.
  intros H. unfold heat_points, gt.
  repeat case_bool_decide; try lia; exfalso; qc_linear.
Qed.

Lemma dryness_points_antitone x y : (y ≤ x)%Qc → dryness_points x ≤ dryness_points y.
Proof.
  intros H. unfold dryness_points, lt.
  repeat case_bool_decide; try lia; exfalso; qc_linear.
Qed.

Lemma wind_points_monotone x y : (x ≤ y)%Qc → wind_points x ≤ wind_points y.
Proof.
  intros H. unfold wind_points, gt.
  repeat case_bool_decide; try lia; exfalso; qc_linear.
Qed.

Lemma drought_points_monotone x y : (x ≤ y)%Qc → drought_points x ≤ drought_points y.
Proof.
  intros H. unfold drought_points, gt.
  repeat case_bool_decide; try lia; exfalso; qc_linear.
Qed.

(** X3: [weather_risk] is the plain sum of its four ladders, the clamp to
    100 never cuts anything; it is 100 exactly when all four readings are in
    their top tier and 0 exactly when none reaches a tier. *)
Theorem weather_risk_extremes (data : Dict) :
  let temp := get data "temperature" (num 20) in
  let humidity := get data "humidity" (num 50) in
  let wind_speed := get data "wind_speed" (num 0) in
  let days_since_rain := get data "days_since_rain" (num 0) in
  _calculate_weather_risk data
  = heat_points temp + dryness_points humidity + wind_points wind_speed
    + drought_points days_since_rain
  ∧ (_calculate_weather_risk data = 100
     ↔ (num 30 < temp)%Qc ∧ (humidity < num 30)%Qc
       ∧ (num 20 < wind_speed)%Qc ∧ (num 14 < days_since_rain)%Qc)
  ∧ (_calculate_weather_risk data = 0
     ↔ (temp ≤ num 25)%Qc ∧ (num 40 ≤ humidity)%Qc
       ∧ (wind_speed ≤ num 10)%Qc ∧ (days_since_rain ≤ num 7)%Qc).
Proof.
  cbv zeta. split; [apply weather_risk_sum|]. rewrite weather_risk_sum.
  unfold heat_points, dryness_points, wind_points, drought_points.
  generalize (get data "temperature" (num 20)) (get data "humidity" (num 50))
             (get data "wind_speed" (num 0)) (get data "days_since_rain" (num 0)).
  intros t h w r. unfold gt, lt.
  repeat case_bool_decide;
    (repeat split; intros;
     repeat match goal with H : _ ∧ _ |- _ => destruct H end;
     try lia; qc_linear).
Qed.

(** X4: hotter, drier, windier and longer without rain never lowers
    [weather_risk]. *)
Theorem weather_risk_monotone (d1 d2 : Dict) :
  (get d1 "temperature" (num 20) ≤ get d2 "temperature" (num 20))%Qc →
  (get d2 "humidity" (num 50) ≤ get d1 "humidity" (num 50))%Qc →
  (get d1 "wind_speed" (num 0) ≤ get d2 "wind_speed" (num 0))%Qc →
  (get d1 "days_since_rain" (num 0) ≤ get d2 "days_since_rain" (num 0))%Qc →
  _calculate_weather_risk d1 ≤ _calculate_weather_risk d2.
Proof.
  intros Ht Hh Hw Hr. rewrite !weather_risk_sum.
  pose proof (heat_points_monotone _ _ Ht).
  pose proof (dryness_points_antitone _ _ Hh).
  pose proof (wind_points_monotone _ _ Hw).
  pose proof (drought_points_monotone _ _ Hr).
  lia.
Qed.

Lemma weather_risk_monotone_witness :
  _calculate_weather_risk ∅
  ≤ _calculate_weather_risk {[ "temperature" := num 35; "humidity" := num 20 ]}.
Proof.
  apply weather_risk_monotone; vm_compute; discriminate.
Defined.

(** ** Terrain and proximity risk *)

Lemma slope_points_monotone x y : (x ≤ y)%Qc → slope_points x ≤ slope_points y.
Proof.
  intros H. unfold slope_points, gt.
  repeat case_bool_decide; try lia; exfalso; qc_linear.
Qed.

Lemma distance_points_monotone x y :
  (x ≤ y)%Qc → distance_points x ≤ distance_points y.
Proof.
  intros H. unfold distance_points, gt.
  repeat case_bool_decide; try lia; exfalso; qc_linear.
Qed.

Lemma density_points_monotone x y :
  (x ≤ y)%Qc → density_points x ≤ density_points y.
Proof.
  intros H. unfold density_points, gt.
  repeat case_bool_decide; try lia; exfalso; qc_linear.
Qed.

(** X5: [terrain_risk] passes 50 only at its top value 60, which needs a
    slope above 30 on a south-facing aspect; it is 0 exactly for a slope of
    at most 10 off that aspect range. *)
Theorem terrain_risk_top (data : Dict) :
  let slope := get data "slope" (num 0) in
  let aspect := get data "aspect" (num 0) in
  (50 < _calculate_terrain_risk data ↔ _calculate_terrain_risk data = 60)
  ∧ (_calculate_terrain_risk data = 60
     ↔ (num 30 < slope)%Qc ∧ (num 135 ≤ aspect ≤ num 225)%Qc)
  ∧ (_calculate_terrain_risk data = 0
     ↔ (slope ≤ num 10)%Qc ∧ ¬ (num 135 ≤ aspect ≤ num 225)%Qc).
Proof.
  cbv zeta. split; [|split].
  - rewrite terrain_risk_sum. unfold slope_points, aspect_bonus.
    repeat destruct (gt _ _); destruct (_ && _); lia.
  - rewrite terrain_risk_sum. unfold slope_points, aspect_bonus.
    generalize (get data "slope" (num 0)) (get data "aspect" (num 0)).
    intros s a. unfold gt, le.
    repeat case_bool_decide; cbn [andb];
      (split; intros;
       repeat match goal with H : _ ∧ _ |- _ => destruct H end;
       try lia; try (repeat split; qc_linear); qc_linear).
  - rewrite terrain_risk_sum. unfold slope_points, aspect_bonus.
    generalize (get data "slope" (num 0)) (get data "aspect" (num 0)).
    intros s a. unfold gt, le.
    repeat case_bool_decide; cbn [andb];
      (split; intros;
       repeat match goal with H : _ ∧ _ |- _ => destruct H end;
       try lia; try (split; [qc_linear|intros [? ?]; qc_linear]); qc_linear).
Qed.

(** X6: on the same aspect a steeper slope never lowers [terrain_risk]. *)
Theorem terrain_risk_monotone (d1 d2 : Dict) :
  get d1 "aspect" (num 0) = get d2 "aspect" (num 0) →
  (get d1 "slope" (num 0) ≤ get d2 "slope" (num 0))%Qc →
  _calculate_terrain_risk d1 ≤ _calculate_terrain_risk d2.
Proof.
  intros Ha Hs. rewrite !terrain_risk_sum, Ha.
  pose proof (slope_points_monotone _ _ Hs). lia.
Qed.

Lemma terrain_risk_monotone_witness :
  _calculate_terrain_risk {[ "slope" := num 12; "aspect" := num 180 ]}
  ≤ _calculate_terrain_risk {[ "slope" := num 31; "aspect" := num 180 ]}.
Proof.
  apply terrain_risk_monotone; [reflexivity|]. vm_compute. discriminate.
Defined.

Lemma proximity_risk_sum (data : Dict) :
  _calculate_proximity_risk data
  = distance_points (get data "distance_to_water" (num 10))
    + distance_points (get data "distance_to_road" (num 1))
    + density_points (get data "population_density" (num 100)).
Proof.
  rewrite proximity_risk_ladder.
  unfold distance_points, density_points. repeat destruct (gt _ _); reflexivity.
Qed.

(** X7: [proximity_risk] is the plain sum of its three ladders and never
    passes 80, so its clamp to 100 is never reached; it is 0 exactly when
    water and road are within 2 and the density is at most 1000, and 80
    exactly when all three are in their top tier; a mapping from which
    [distance_to_water] is missing scores at least 30. *)
Theorem proximity_risk_bounds (data : Dict) :
  let water := get data "distance_to_water" (num 10) in
  let road := get data "distance_to_road" (num 1) in
  let density := get data "population_density" (num 100) in
  _calculate_proximity_risk data
  = distance_points water + distance_points road + density_points density
  ∧ _calculate_proximity_risk data ∈ [0; 20; 30; 40; 50; 60; 70; 80]
  ∧ (_calculate_proximity_risk data = 0
     ↔ (water ≤ num 2)%Qc ∧ (road ≤ num 2)%Qc ∧ (density ≤ num 1000)%Qc)
  ∧ (_calculate_proximity_risk data = 80
     ↔ (num 5 < water)%Qc ∧ (num 5 < road)%Qc ∧ (num 1000 < density)%Qc)
  ∧ 30 ≤ _calculate_proximity_risk (delete "distance_to_water" data).
Proof.
  cbv zeta.
  split; [apply proximity_risk_sum|]. split; [|split; [|split]].
  - rewrite proximity_risk_sum. unfold distance_points, density_points.
    repeat destruct (gt _ _); in_list.
  - rewrite proximity_risk_sum. unfold distance_points, density_points.
    generalize (get data "distance_to_water" (num 10))
               (get data "distance_to_road" (num 1))
               (get data "population_density" (num 100)).
    intros w r p. unfold gt.
    repeat case_bool_decide;
      (split; intros;
       repeat match goal with H : _ ∧ _ |- _ => destruct H end;
       try lia; try (repeat split; qc_linear); qc_linear).
  - rewrite proximity_risk_sum. unfold distance_points, density_points.
    generalize (get data "distance_to_water" (num 10))
               (get data "distance_to_road" (num 1))
               (get data "population_density" (num 100)).
    intros w r p. unfold gt.
    repeat case_bool_decide;
      (split; intros;
       repeat match goal with H : _ ∧ _ |- _ => destruct H end;
       try lia; try (repeat split; qc_linear); qc_linear).
  - rewrite proximity_risk_sum. unfold get at 1. rewrite lookup_delete_eq.
    change (distance_points (num 10)) with 30.
    unfold distance_points, density_points. repeat destruct (gt _ _); lia.
Qed.

(** X8: farther from water, farther from the road and denser never lowers
    [proximity_risk]. *)
Theorem proximity_risk_monotone (d1 d2 : Dict) :
  (get d1 "distance_to_water" (num 10) ≤ get d2 "distance_to_water" (num 10))%Qc →
  (get d1 "distance_to_road" (num 1) ≤ get d2 "distance_to_road" (num 1))%Qc →
  (get d1 "population_density" (num 100)
   ≤ get d2 "population_density" (num 100))%Qc →
  _calculate_proximity_risk d1 ≤ _calculate_proximity_risk d2.
Proof.
  intros Hw Hr Hp. rewrite !proximity_risk_sum.
  pose proof (distance_points_monotone _ _ Hw).
  pose proof (distance_points_monotone _ _ Hr).
  pose proof (density_points_monotone _ _ Hp).
  lia.
Qed.

Lemma proximity_risk_monotone_witness :
  _calculate_proximity_risk {[ "distance_to_water" := num 1 ]}
  ≤ _calculate_proximity_risk {[ "distance_to_road" := num 6 ]}.
Proof.
  apply proximity_risk_monotone; vm_compute; discriminate.
Defined.

(** ** The single-shot spread estimate *)

Lemma num_nonzero (z : Z) : z ≠ 0 → num z ≠ 0%Qc.
Proof.
  intros Hz H. apply Hz. apply Z2Qc_inj. unfold num in H.
  by rewrite H, Z2Qc_inj_0.
Qed.

(** [1 + x / c] vanishes only at [x = -c]. *)
Lemma factor_zero (x : Qc) (c : Z) :
  c ≠ 0 → (1 + x / num c = 0)%Qc ↔ x = num (- c).
Proof.
  intros Hc. pose proof (num_nonzero c Hc) as Hn.
  unfold num in *. rewrite Z2Qc_inj_opp. split.
  - intros H.
    assert (x = ((1 + x / Qc_of_Z c) * Qc_of_Z c - Qc_of_Z c)%Qc) as -> by (by field).
    rewrite H. ring.
  - intros ->. by field.
Qed.

Lemma single_shot_rate_zero (data : Dict) :
  single_shot_rate data = 0%Qc
  ↔ get data "wind_speed" (num 10) = num (-20) ∨ get data "slope" (num 0) = num (-30).
Proof.
  unfold single_shot_rate. cbv zeta.
  rewrite <- (factor_zero _ 20), <- (factor_zero _ 30) by done.
  split.
  - intros H. apply Qcmult_integral in H as [H|H]; [|by right].
    apply Qcmult_integral in H as [H|H]; [|by left].
    exfalso. revert H. apply Qc_this_neq. vm_compute. discriminate.
  - intros [H|H]; rewrite H; ring.
Qed.

Lemma simulate_fire_spread_cases (data : Dict) :
  match _simulate_fire_spread data with
  | Raise e =>
      e = ZeroDivisionError
      ∧ (get data "wind_speed" (num 10) = num (-20)
         ∨ get data "slope" (num 0) = num (-30))
  | Ok _ =>
      get data "wind_speed" (num 10) ≠ num (-20)
      ∧ get data "slope" (num 0) ≠ num (-30)
  end.
Proof.
  unfold _simulate_fire_spread, truediv. case_bool_decide as Hz.
  - split; [done|]. by apply single_shot_rate_zero.
  - split; intros H; apply Hz; apply single_shot_rate_zero; auto.
Qed.





(** ** The risk report *)

(** What a call returns, with the refit carried out. *)
Lemma calculate_risk_score_outcome (sqrt : Qc → Qc) (self : WildfireRiskModel)
    (now : string) (data : Dict) :
  (calculate_risk_score sqrt self now data).2
  = if reset_raises (scaler self) then Raise AttributeError
    else
      match _simulate_fire_spread data with
      | Raise e => Raise e
      | Ok fire_spread =>
          let risk_score := model self zeros in
          Ok {| overall_risk_score := risk_score;
                risk_level := _get_risk_level risk_score;
                component_scores :=
                  {| vegetation_risk := _calculate_vegetation_risk data;
                     weather_risk := _calculate_weather_risk data;
                     terrain_risk := _calculate_terrain_risk data;
                     proximity_risk := _calculate_proximity_risk data |};
                recommendations :=
                  _generate_recommendations risk_score
                    (num (_calculate_vegetation_risk data))
                    (num (_calculate_weather_risk data))
                    (num (_calculate_terrain_risk data));
                fire_spread_simulation := fire_spread;
                confidence_score := dec 85 2;
                assessment_timestamp := now |}
      end.
Proof.
  unfold calculate_risk_score. rewrite fit_transform_features.
  destruct (reset_raises (scaler self)); [done|]. cbn.
  by destruct (_simulate_fire_spread data).
Qed.


Lemma num_gt (z c : Z) : gt (num z) (num c) = true ↔ c < z.
Proof. rewrite gt_spec. unfold num. by rewrite <- Z2Qc_inj_lt. Qed.

Lemma recommended_actions (risk_score veg_risk weather_risk terrain_risk : Qc) :
  let actions :=
    action <$> _generate_recommendations risk_score veg_risk weather_risk terrain_risk in
  ("Vegetation Management" ∈ actions ↔ gt veg_risk (num 60) = true)
  ∧ ("Install Sprinkler System" ∈ actions ↔ gt risk_score (num 70) = true)
  ∧ ("Create Fuel Breaks" ∈ actions ↔ gt terrain_risk (num 50) = true).
Proof.
  cbv zeta. rewrite generate_recommendations_concat.
  destruct (gt veg_risk _), (gt risk_score _), (gt terrain_risk _); cbn;
    rewrite ?elem_of_cons, ?elem_of_nil;
    repeat split; try reflexivity; try discriminate; try tauto.
  all: intros H; repeat (destruct H as [H|H]; [discriminate H|]); destruct H.
Qed.

Lemma vegetation_risk_above_60 (data : Dict) :
  60 < _calculate_vegetation_risk data
  ↔ (dec 6 1 < get data "ndvi" (num 0))%Qc
    ∧ (get data "fuel_moisture" (num 50) < num 30)%Qc.
Proof.
  unfold _calculate_vegetation_risk. cbv zeta. rewrite <- gt_spec, <- lt_spec.
  destruct (gt _ (dec 6 1)), (lt _ (num 30)); cbn [andb];
    repeat destruct (_ && _); repeat destruct (gt _ _);
    split; try lia; try tauto; intros [? ?]; discriminate.
Qed.

Lemma terrain_risk_above_50 (data : Dict) :
  50 < _calculate_terrain_risk data
  ↔ (num 30 < get data "slope" (num 0))%Qc
    ∧ (num 135 ≤ get data "aspect" (num 0) ≤ num 225)%Qc.
Proof.
  unfold _calculate_terrain_risk. cbv zeta.
  rewrite <- gt_spec, <- !le_spec, <- andb_true_iff.
  destruct (gt _ (num 30)); repeat destruct (gt _ _); destruct (_ && _);
    split; try lia; try tauto; intros [? ?]; discriminate.
Qed.

(** X12: in every report, Vegetation Management is recommended exactly when
    the vegetation index is above 0.6 with fuel moisture below 30, Create
    Fuel Breaks exactly when the slope is above 30 on a south-facing
    aspect, and Install Sprinkler System exactly when the score of the
    network is above 70; the weather and proximity scores never decide a
    recommendation. *)
Theorem report_recommendations (sqrt : Qc → Qc) (self : WildfireRiskModel)
    (now : string) (data : Dict) :
  match (calculate_risk_score sqrt self now data).2 with
  | Raise _ => True
  | Ok report =>
      let actions := action <$> recommendations report in
      ("Vegetation Management" ∈ actions
         ↔ (dec 6 1 < get data "ndvi" (num 0))%Qc
           ∧ (get data "fuel_moisture" (num 50) < num 30)%Qc)
      ∧ ("Create Fuel Breaks" ∈ actions
         ↔ (num 30 < get data "slope" (num 0))%Qc
           ∧ (num 135 ≤ get data "aspect" (num 0) ≤ num 225)%Qc)
      ∧ ("Install Sprinkler System" ∈ actions
         ↔ (num 70 < overall_risk_score report)%Qc)
      ∧ "Emergency Planning" ∈ actions
  end.
Proof.
  rewrite calculate_risk_score_outcome.
  destruct (reset_raises (scaler self)); [done|].
  destruct (_simulate_fire_spread data); [|done]. cbn.
  pose proof (recommended_actions (model self zeros)
                (num (_calculate_vegetation_risk data))
                (num (_calculate_weather_risk data))
                (num (_calculate_terrain_risk data))) as (Hv & Hs & Ht).
  cbv zeta in Hv, Hs, Ht.
  rewrite Hv, Hs, Ht, !num_gt, gt_spec.
  rewrite vegetation_risk_above_60, terrain_risk_above_50.
  split; [done|]. split; [done|]. split; [done|].
  rewrite generate_recommendations_concat, !fmap_app.
  rewrite !elem_of_app. do 3 right. apply list_elem_of_here.
Qed.

(** X13: the tier of a report against its sprinkler recommendation: an EXTREME
    report always carries it, a HIGH report carries it exactly above 70,
    and a report below HIGH never does. *)
Theorem report_tier_and_sprinkler (sqrt : Qc → Qc) (self : WildfireRiskModel)
    (now : string) (data : Dict) :
  match (calculate_risk_score sqrt self now data).2 with
  | Raise _ => True
  | Ok report =>
      let sprinkler :=
        "Install Sprinkler System" ∈ action <$> recommendations report in
      risk_level report = _get_risk_level (overall_risk_score report)
      ∧ ((risk_level report = "EXTREME" ∧ sprinkler)
         ∨ (risk_level report = "HIGH"
            ∧ (sprinkler ↔ (num 70 < overall_risk_score report)%Qc))
         ∨ (risk_level report ∈ ["MODERATE"; "LOW"; "MINIMAL"] ∧ ¬ sprinkler))
  end.
Proof.
  rewrite calculate_risk_score_outcome.
  destruct (reset_raises (scaler self)); [done|].
  destruct (_simulate_fire_spread data); [|done]. cbv zeta.
  generalize (model self zeros). intros s.
  cbn [recommendations risk_level overall_risk_score].
  pose proof (recommended_actions s
                (num (_calculate_vegetation_risk data))
                (num (_calculate_weather_risk data))
                (num (_calculate_terrain_risk data))) as (_ & Hs & _).
  cbv zeta in Hs. rewrite Hs, gt_spec. clear Hs.
  unfold _get_risk_level, ge.
  split; [done|].
  repeat case_bool_decide.
  - left. split; [done|]. qc_linear.
  - right. left. by split.
  - do 2 right. split; [in_list|]. intros ?. qc_linear.
  - do 2 right. split; [in_list|]. intros ?. qc_linear.
  - do 2 right. split; [in_list|]. intros ?. qc_linear.
Qed.

(** ** What a report depends on *)

(** The keys a report can depend on. *)
Lemma get_agree (d1 d2 : Dict) key default :
  d1 !! key = d2 !! key → get d1 key default = get d2 key default.
Proof. unfold get. by intros ->. Qed.

(** X14: two mappings that agree on the eleven keys the scorers and the
    spread estimate read, and on [wind_direction], get the same outcome
    from the same object: [ndmi], [elevation], [drought_index],
    [historical_fires] and every other key change nothing in the report. *)
Theorem report_depends_on_keys (sqrt : Qc → Qc) (self : WildfireRiskModel)
    (now : string) (d1 d2 : Dict) :
  (∀ key, key ∈ report_keys → d1 !! key = d2 !! key) →
  (calculate_risk_score sqrt self now d1).2
  = (calculate_risk_score sqrt self now d2).2.
Proof.
  intros H. rewrite !calculate_risk_score_outcome.
  destruct (reset_raises (scaler self)); [done|].
  assert (∀ key default, key ∈ report_keys →
            get d1 key default = get d2 key default) as Hg
    by (intros; apply get_agree; auto).
  assert (_calculate_vegetation_risk d1 = _calculate_vegetation_risk d2) as ->.
  { unfold _calculate_vegetation_risk.
    rewrite (Hg "ndvi"), (Hg "fuel_moisture") by in_list. reflexivity. }
  assert (_calculate_weather_risk d1 = _calculate_weather_risk d2) as ->.
  { unfold _calculate_weather_risk.
    rewrite (Hg "temperature"), (Hg "humidity"), (Hg "wind_speed"),
      (Hg "days_since_rain") by in_list. reflexivity. }
  assert (_calculate_terrain_risk d1 = _calculate_terrain_risk d2) as ->.
  { unfold _calculate_terrain_risk.
    rewrite (Hg "slope"), (Hg "aspect") by in_list. reflexivity. }
  assert (_calculate_proximity_risk d1 = _calculate_proximity_risk d2) as ->.
  { unfold _calculate_proximity_risk.
    rewrite (Hg "distance_to_water"), (Hg "distance_to_road"),
      (Hg "population_density") by in_list. reflexivity. }
  assert (_simulate_fire_spread d1 = _simulate_fire_spread d2) as ->.
  { unfold _simulate_fire_spread, single_shot_rate.
    rewrite (Hg "wind_direction"), (Hg "wind_speed"), (Hg "slope") by in_list.
    reflexivity. }
  reflexivity.
Qed.

Lemma report_depends_on_keys_witness :
  (calculate_risk_score (λ x, x) (__init__ None total) "t"
     (<[ "elevation" := num 4000 ]> (<[ "ndmi" := num (-1) ]> property_features))).2
  = (calculate_risk_score (λ x, x) (__init__ None total) "t"
       property_features).2.
Proof.
  apply report_depends_on_keys. intros key Hkey.
  rewrite !lookup_insert_ne; [done| |].
  - intros <-. revert Hkey. unfold report_keys. rewrite !elem_of_cons, elem_of_nil.
    intros H. repeat (destruct H as [H|H]; [discriminate H|]). destruct H.
  - intros <-. revert Hkey. unfold report_keys. rewrite !elem_of_cons, elem_of_nil.
    intros H. repeat (destruct H as [H|H]; [discriminate H|]). destruct H.
Defined.

(** ** The object across calls *)

Lemma calculate_risk_score_same_network (sqrt : Qc → Qc)
    (self self' : WildfireRiskModel) (now : string) (d : Dict) :
  model self = model self' →
  reset_raises (scaler self) = false →
  reset_raises (scaler self') = false →
  calculate_risk_score sqrt self now d = calculate_risk_score sqrt self' now d.
Proof.
  intros Hm H1 H2. apply injective_projections.
  - by rewrite !calculate_risk_score_state, Hm, H1, H2.
  - by rewrite !calculate_risk_score_outcome, Hm, H1, H2.
Qed.

(** X15: on a scaler that gets through [_reset], what the scaler held
    before a call is never read: two such objects with the same network
    give the same outcome and end in the same state; so the state after two
    calls is the state after the last one, and a repeated call changes
    nothing more. *)
Theorem scaler_is_overwritten (sqrt : Qc → Qc) (network : list Qc → Qc)
    (scaler1 scaler2 : StandardScaler) (now now' : string) (d d' : Dict) :
  reset_raises scaler1 = false →
  reset_raises scaler2 = false →
  let self1 := {| model := network; scaler := scaler1 |} in
  let self2 := {| model := network; scaler := scaler2 |} in
  calculate_risk_score sqrt self1 now d = calculate_risk_score sqrt self2 now d
  ∧ (calculate_risk_score sqrt (calculate_risk_score sqrt self1 now' d').1 now d).1
    = (calculate_risk_score sqrt self1 now d).1
  ∧ (calculate_risk_score sqrt (calculate_risk_score sqrt self1 now d).1 now d)
    = calculate_risk_score sqrt self1 now d.
Proof.
  intros H1 H2. cbv zeta.
  assert (∀ t m, (calculate_risk_score sqrt {| model := network; scaler := scaler1 |} t m).1
                 = {| model := network; scaler := refit m |}) as Hstate.
  { intros t m. rewrite calculate_risk_score_state. cbn [scaler model]. by rewrite H1. }
  split; [by apply calculate_risk_score_same_network|]. split.
  - rewrite !Hstate. by rewrite calculate_risk_score_state.
  - rewrite Hstate. by apply calculate_risk_score_same_network.
Qed.

(** A newly built object against one whose scaler a training run filled. *)
Lemma scaler_is_overwritten_witness :
  calculate_risk_score (λ x, x) {| model := total; scaler := Unfitted |}
    "t" property_features
  = calculate_risk_score (λ x, x) {| model := total; scaler := trained_scaler |}
      "t" property_features.
Proof.
  apply (scaler_is_overwritten (λ x, x) total Unfitted trained_scaler "t" "t"
           property_features property_features); reflexivity.
Defined.

(** ** Saving and loading *)

(** X16: saving after loading writes the artifact that was loaded, and
    loading an object's own artifact into it changes nothing; [save_model]
    fails exactly when the scaler lacks [mean_] or [scale_].  [load_model]
    brings back the network, [mean_] and [scale_] and nothing else: the
    scaler keeps whatever [n_samples_seen_] and [var_] it had, none in a new
    object, whose next [fit] therefore raises. *)
Theorem save_load_round_trip (self : WildfireRiskModel) (a : Artifact)
    (built : list Qc → Qc) :
  save_model (load_model self a) = Ok a
  ∧ (save_model self = Ok a → load_model self a = self)
  ∧ (save_model self = Raise AttributeError
     ↔ mean_ (scaler self) = None ∨ scale_ (scaler self) = None)
  ∧ n_samples_seen_ (scaler (load_model self a)) = n_samples_seen_ (scaler self)
  ∧ var_ (scaler (load_model self a)) = var_ (scaler self)
  ∧ scaler (__init__ (Some a) built)
    = Loaded (scaler_params_mean a) (scaler_params_scale a)
  ∧ reset_raises (scaler (__init__ (Some a) built)) = true.
Proof.
  destruct a as [f m s]. destruct self as [g sc].
  unfold save_model, load_model, __init__. cbn.
  split; [by destruct sc|]. split; [|split; [|split; [|split]]].
  - destruct sc; cbn; try discriminate; by intros [= <- <- <-].
  - destruct sc; cbn; split; try discriminate; auto; intros [H|H]; discriminate.
  - by destruct sc.
  - by destruct sc.
  - done.
Qed.

(** X17: a newly built object cannot be saved, but after one call of
    [calculate_risk_score] it can: what is written is the network with the
    features of that call as mean and ones as scale.  An object started
    from that artifact is not the object that was saved: its first call
    raises AttributeError, whatever the mapping, and leaves a scaler that
    cannot be saved; from its second call on it answers like the
    original. *)
Theorem save_after_inference (sqrt : Qc → Qc) (network : list Qc → Qc)
    (now now' : string) (data data' : Dict) :
  let fresh := __init__ None network in
  let used := (calculate_risk_score sqrt fresh now data).1 in
  let artifact := {| h5 := network;
                     scaler_params_mean := extract_features data;
                     scaler_params_scale := ones |} in
  let restarted := __init__ (Some artifact) network in
  let first := calculate_risk_score sqrt restarted now' data' in
  save_model fresh = Raise AttributeError
  ∧ save_model used = Ok artifact
  ∧ scaler used = refit data
  ∧ scaler restarted = Loaded (extract_features data) ones
  ∧ first.2 = Raise AttributeError
  ∧ scaler first.1 = MeanOnly (extract_features data)
  ∧ save_model first.1 = Raise AttributeError
  ∧ calculate_risk_score sqrt first.1 now' data'
    = calculate_risk_score sqrt used now' data'.
Proof.
  cbv zeta.
  split; [done|]. split; [by rewrite calculate_risk_score_state|].
  split; [by rewrite calculate_risk_score_state|]. split; [done|].
  split; [by rewrite calculate_risk_score_outcome|].
  split; [by rewrite calculate_risk_score_state|].
  split; [by rewrite calculate_risk_score_state|].
  apply calculate_risk_score_same_network;
    by rewrite !calculate_risk_score_state.
Qed.

(** ** The hourly projection, in general *)


Lemma last_range (hours : Z) : 1 ≤ hours → last (range hours) = Some (hours - 1).
Proof.
  intros Hh. unfold range. rewrite last_lookup, length_seqZ.
  rewrite lookup_seqZ_lt by lia. f_equal. lia.
Qed.

Lemma simulate_fire_spread_total_area (start w t : Dict) (hours : Z) sim :
  simulate_fire_spread start w t hours = Ok sim →
  1 ≤ hours
  ∧ total_area_hectares sim
    = (dec 314159 5 * (num hours * hourly_spread_rate w t
                       * (num hours * hourly_spread_rate w t)) * num 100)%Qc.
Proof.
  destruct (decide (hours ≤ 0)) as [Hle|Hgt].
  - by rewrite simulate_fire_spread_raises.
  - unfold simulate_fire_spread. rewrite spread_patterns_closed_form.
    rewrite fmap_last, last_range by lia. cbn [fmap option_fmap option_map].
    intros [= <-]. cbn [total_area_hectares area_hectares sample_at].
    replace (hours - 1 + 1) with hours by lia. split; [lia|reflexivity].
Qed.

(** X18: with a duration that is not positive the loop does not run and
    the endpoint answers with an HTTP 500, the only error it can answer
    with; a simulation it returns has one sample per hour, numbered from 0,
    the first at the hourly rate, [total_area_hectares] is the area of the
    last sample, and start point and conditions are echoed. *)
Theorem hourly_projection_outcome (start w t : Dict) (hours : Z) :
  (hours ≤ 0 → simulate_fire_spread start w t hours = Raise (HTTPException 500))
  ∧ match simulate_fire_spread start w t hours with
    | Raise e => e = HTTPException 500
    | Ok sim =>
        1 ≤ hours
        ∧ length (spread_patterns sim) = Z.to_nat hours
        ∧ hour <$> spread_patterns sim = range hours
        ∧ radius_km <$> spread_patterns sim !! 0%nat
          = Some (hourly_spread_rate w t)
        ∧ area_hectares <$> last (spread_patterns sim)
          = Some (total_area_hectares sim)
        ∧ start_point sim = start
        ∧ conditions_weather sim = w
        ∧ conditions_terrain sim = t
    end.
Proof.
  split; [apply simulate_fire_spread_raises|].
  destruct (decide (hours ≤ 0)) as [Hle|Hgt].
  - by rewrite simulate_fire_spread_raises.
  - unfold simulate_fire_spread.
    destruct (last (spread_loop w t hours).2) as [s|] eqn:Hlast.
    + cbn [spread_patterns total_area_hectares start_point conditions_weather
           conditions_terrain]. rewrite Hlast.
      rewrite spread_patterns_length, spread_patterns_lookup.
      rewrite decide_True by (cbn; lia).
      rewrite spread_patterns_closed_form, <- list_fmap_compose.
      split; [lia|]. split; [done|]. split.
      { rewrite <- (list_fmap_id (range hours)) at 2. by apply list_fmap_ext. }
      split; [|done]. change (Z.of_nat 0 + 1) with 1.
      cbn [fmap option_fmap option_map radius_km sample_at]. f_equal.
      unfold num. rewrite Z2Qc_inj_1. ring.
    + apply last_None in Hlast. apply (f_equal length) in Hlast.
      rewrite spread_patterns_length in Hlast. cbn in Hlast. lia.
Qed.

Lemma Qc_square_nonneg (x : Qc) : (0 ≤ x * x)%Qc.
Proof.
  destruct (Qclt_le_dec x 0) as [Hneg|Hpos].
  - replace (x * x)%Qc with ((- x) * (- x))%Qc by ring.
    assert (0 ≤ - x)%Qc.
    { apply Qclt_le_weak in Hneg. apply Qcopp_le_compat in Hneg.
      by replace (- 0)%Qc with 0%Qc in Hneg by ring. }
    by apply Qcmult_nonneg_nonneg.
  - by apply Qcmult_nonneg_nonneg.
Qed.

Lemma approx_pi_nonneg : (0 ≤ dec 314159 5)%Qc.
Proof. vm_compute. discriminate. Qed.

Lemma hundred_nonneg : (0 ≤ num 100)%Qc.
Proof. vm_compute. discriminate. Qed.

Lemma area_at_hour (rate : Qc) (h : Z) :
  area_hectares (sample_at h (num (h + 1) * rate))
  = (dec 314159 5 * (num ((h + 1) * (h + 1)) * (rate * rate)) * num 100)%Qc.
Proof. cbn. unfold num. rewrite Z2Qc_inj_mul. ring. Qed.

(** X19: whatever the sign of the rate, the area of the samples never
    shrinks from one hour to the next, no area is negative, and
    [total_area_hectares] is the largest area of the projection. *)
Theorem hourly_area_grows (start w t : Dict) (hours : Z) :
  (∀ i s s', (spread_loop w t hours).2 !! i = Some s →
             (spread_loop w t hours).2 !! S i = Some s' →
             (area_hectares s ≤ area_hectares s')%Qc)
  ∧ match simulate_fire_spread start w t hours with
    | Raise _ => True
    | Ok sim =>
        Forall (λ s, (0 ≤ area_hectares s ≤ total_area_hectares sim)%Qc)
          (spread_patterns sim)
    end.
Proof.
  assert (∀ a b : Z, 0 ≤ a ≤ b →
            (dec 314159 5 * (num (a * a)
               * (hourly_spread_rate w t * hourly_spread_rate w t)) * num 100
             ≤ dec 314159 5 * (num (b * b)
               * (hourly_spread_rate w t * hourly_spread_rate w t)) * num 100)%Qc)
    as Hmono.
  { intros a b Hab. apply Qcmult_le_mono_nonneg_r; [apply hundred_nonneg|].
    apply Qcmult_le_mono_nonneg_l; [apply approx_pi_nonneg|].
    apply Qcmult_le_mono_nonneg_r; [apply Qc_square_nonneg|].
    unfold num. apply (proj1 (Z2Qc_inj_le _ _)).
    apply Z.mul_le_mono_nonneg; lia. }
  split.
  - intros i s s'. rewrite !spread_patterns_lookup.
    repeat case_decide; try discriminate. intros [= <-] [= <-].
    rewrite !area_at_hour. apply Hmono. lia.
  - destruct (simulate_fire_spread start w t hours) as [sim|] eqn:Hsim; [|done].
    destruct (simulate_fire_spread_total_area _ _ _ _ _ Hsim) as (Hh & Htotal).
    rewrite (simulate_fire_spread_patterns _ _ _ _ _ Hsim), Htotal.
    rewrite spread_patterns_closed_form. apply Forall_fmap, Forall_forall.
    intros h Hin. apply elem_of_seqZ in Hin. cbn [compose].
    rewrite area_at_hour. split.
    + apply Qcmult_nonneg_nonneg; [|apply hundred_nonneg].
      apply Qcmult_nonneg_nonneg; [apply approx_pi_nonneg|].
      apply Qcmult_nonneg_nonneg; [|apply Qc_square_nonneg].
      unfold num. rewrite <- Z2Qc_inj_0. apply (proj1 (Z2Qc_inj_le _ _)).
      apply Z.mul_nonneg_nonneg; lia.
    + replace (num hours * hourly_spread_rate w t
               * (num hours * hourly_spread_rate w t))%Qc
        with (num (hours * hours)
              * (hourly_spread_rate w t * hourly_spread_rate w t))%Qc
        by (unfold num; rewrite Z2Qc_inj_mul; ring).
      apply Hmono. lia.
Qed.

(** X20: a shorter projection is the beginning of a longer one under the
    same conditions. *)
Theorem hourly_projection_prefix (w t : Dict) (hours hours' : Z) :
  hours ≤ hours' →
  (spread_loop w t hours).2
  = take (Z.to_nat hours) (spread_loop w t hours').2.
Proof.
  intros Hle. apply list_eq. intros i.
  destruct (decide (i < Z.to_nat hours)%nat) as [Hi|Hi].
  - rewrite lookup_take_lt by done. rewrite !spread_patterns_lookup.
    by rewrite !decide_True by lia.
  - rewrite lookup_take_ge by lia. rewrite spread_patterns_lookup.
    by rewrite decide_False by lia.
Qed.

Lemma hourly_projection_prefix_witness :
  (spread_loop example_weather example_terrain 2).2
  = take 2 (spread_loop example_weather example_terrain 5).2.
Proof.
  apply (hourly_projection_prefix example_weather example_terrain 2 5). lia.
Defined.

(** ** Recommendations as a list *)

Lemma gt_monotone (x y c : Qc) : (x ≤ y)%Qc → gt x c = true → gt y c = true.
Proof.
  rewrite !gt_spec. intros Hxy Hc. by eapply Qclt_le_trans.
Qed.

(** X21: no action is recommended twice; the HIGH entries come before the
    MEDIUM ones; the costs add up to 2500, 5000 and 3500 for the entries
    present, at most 11000, and the risk reductions to between 5 and 50. *)
Theorem recommendations_totals (risk_score veg_risk weather_risk terrain_risk : Qc) :
  let recs := _generate_recommendations risk_score veg_risk weather_risk terrain_risk in
  NoDup (action <$> recs)
  ∧ (∃ n : nat,
       priority <$> recs
       = replicate n "HIGH" ++ replicate (length recs - n) "MEDIUM")
  ∧ sum_of estimated_cost recs
    = (if gt veg_risk (num 60) then 2500 else 0)
      + (if gt risk_score (num 70) then 5000 else 0)
      + (if gt terrain_risk (num 50) then 3500 else 0)
  ∧ 0 ≤ sum_of estimated_cost recs ≤ 11000
  ∧ 5 ≤ sum_of risk_reduction recs ≤ 50.
Proof.
  cbv zeta. rewrite generate_recommendations_concat.
  destruct (gt veg_risk _), (gt risk_score _), (gt terrain_risk _); cbn.
  all: split; [refine (bool_decide_unpack _ _); vm_compute; exact I|].
  all: split; [|repeat split; lia].
  - by exists 2%nat.
  - by exists 2%nat.
  - by exists 1%nat.
  - by exists 1%nat.
  - by exists 1%nat.
  - by exists 1%nat.
  - by exists 0%nat.
  - by exists 0%nat.
Qed.

(** X22: higher overall, vegetation and terrain scores never take a
    recommendation away. *)
Theorem recommendations_monotone
    (risk_score veg_risk weather_risk terrain_risk : Qc)
    (risk_score' veg_risk' weather_risk' terrain_risk' : Qc) :
  (risk_score ≤ risk_score')%Qc →
  (veg_risk ≤ veg_risk')%Qc →
  (terrain_risk ≤ terrain_risk')%Qc →
  action <$> _generate_recommendations risk_score veg_risk weather_risk terrain_risk
  ⊆ action <$> _generate_recommendations risk_score' veg_risk' weather_risk' terrain_risk'.
Proof.
  intros Hr Hv Ht. rewrite !generate_recommendations_concat.
  pose proof (gt_monotone _ _ (num 70) Hr) as Mr.
  pose proof (gt_monotone _ _ (num 60) Hv) as Mv.
  pose proof (gt_monotone _ _ (num 50) Ht) as Mt.
  destruct (gt veg_risk _); [rewrite (Mv eq_refl)|];
    (destruct (gt risk_score _); [rewrite (Mr eq_refl)|]);
    (destruct (gt terrain_risk _); [rewrite (Mt eq_refl)|]);
    clear Mr Mv Mt;
    try destruct (gt veg_risk' _); try destruct (gt risk_score' _);
    try destruct (gt terrain_risk' _); cbn;
    intros a; rewrite !elem_of_cons, !elem_of_nil; tauto.
Qed.

Lemma recommendations_monotone_witness :
  action <$> _generate_recommendations (num 50) (num 40) (num 0) (num 20)
  ⊆ action <$> _generate_recommendations (num 75) (num 80) (num 0) (num 60).
Proof.
  apply recommendations_monotone; vm_compute; discriminate.
Defined.

(** ** Risk tiers in order *)

(** X23: a higher score never gets a lower tier. *)
Theorem risk_level_monotone (s1 s2 : Qc) :
  (s1 ≤ s2)%Qc →
  (tier_rank (_get_risk_level s1) ≤ tier_rank (_get_risk_level s2))%nat.
Proof.
  intros H. unfold _get_risk_level, ge.
  repeat case_bool_decide; vm_compute;
    first [solve [lia] | exfalso; solve [qc_linear]].
Qed.

Lemma risk_level_monotone_witness :
  (tier_rank (_get_risk_level (num 35)) ≤ tier_rank (_get_risk_level (num 61)))%nat.
Proof.
  apply risk_level_monotone. vm_compute. discriminate.
Defined.

(** ** The risk endpoint *)


Lemma request_features_lookups (request : RiskCalculationRequest) :
  get (request_features request) "slope" (num 0) = request_slope request
  ∧ get (request_features request) "aspect" (num 0) = num 180
  ∧ get (request_features request) "wind_speed" (num 10) = dec 152 1
  ∧ get (request_features request) "wind_direction" (num 0) = num 225.
Proof. repeat split. Qed.

(** Without property data the mapping is the one used above. *)
Lemma request_features_default (request : RiskCalculationRequest) :
  property_data request = None → request_features request = property_features.
Proof. unfold request_features. by intros ->. Qed.

Lemma request_scores (request : RiskCalculationRequest) :
  _calculate_vegetation_risk (request_features request) = 80
  ∧ _calculate_weather_risk (request_features request) = 60
  ∧ _calculate_proximity_risk (request_features request) = 20
  ∧ _calculate_terrain_risk (request_features request)
    = slope_points (request_slope request) + 20.
Proof.
  split; [by vm_compute|]. split; [by vm_compute|]. split; [by vm_compute|].
  rewrite terrain_risk_sum.
  destruct (request_features_lookups request) as (-> & -> & _).
  reflexivity.
Qed.

Lemma request_rate_zero (request : RiskCalculationRequest) :
  single_shot_rate (request_features request) = 0%Qc
  ↔ request_slope request = num (-30).
Proof.
  rewrite single_shot_rate_zero.
  destruct (request_features_lookups request) as (-> & _ & -> & _).
  split; [|by right]. intros [H|H]; [|done].
  exfalso. revert H. apply Qc_this_neq. vm_compute. discriminate.
Qed.

(** The spread estimate of a request reads its slope and two constants. *)
Lemma request_fire_spread (request : RiskCalculationRequest) :
  _simulate_fire_spread (request_features request)
  = _simulate_fire_spread
      {[ "wind_speed" := dec 152 1; "wind_direction" := num 225;
         "slope" := request_slope request ]}.
Proof.
  unfold _simulate_fire_spread, single_shot_rate.
  destruct (request_features_lookups request) as (-> & _ & -> & ->).
  reflexivity.
Qed.

(** X24: the endpoint answers a request with an HTTP 500 in two cases
    only: when [_reset] raises on the scaler the process holds, as on the
    first request after the model was loaded from a stored artifact, and
    when the slope of the request is -30.  In every response the
    vegetation, weather and proximity scores are 80, 60 and 20, the terrain
    score is 20 plus the slope points of the request, Vegetation Management
    is recommended, the model version is 1.0.0 and the overall score is what
    the network gives for the zero vector. *)
Theorem calculate_risk_response (sqrt : Qc → Qc) (model0 : WildfireRiskModel)
    (now : string) (request : RiskCalculationRequest) :
  match (calculate_risk sqrt model0 now request).2 with
  | Raise e =>
      e = HTTPException 500
      ∧ (reset_raises (scaler model0) = true
         ∨ request_slope request = num (-30))
  | Ok response =>
      let report := risk_result response in
      reset_raises (scaler model0) = false
      ∧ request_slope request ≠ num (-30)
      ∧ model_version response = "1.0.0"
      ∧ overall_risk_score report = model model0 zeros
      ∧ component_scores report
        = {| vegetation_risk := 80;
             weather_risk := 60;
             terrain_risk := slope_points (request_slope request) + 20;
             proximity_risk := 20 |}
      ∧ "Vegetation Management" ∈ action <$> recommendations report
      ∧ assessment_timestamp report = now
  end
  ∧ ∀ (a : Artifact) (built : list Qc → Qc),
      (calculate_risk sqrt (__init__ (Some a) built) now request).2
      = Raise (HTTPException 500).
Proof.
  assert (∀ self,
            (calculate_risk sqrt self now request).2
            = match (calculate_risk_score sqrt self now (request_features request)).2 with
              | Ok report => Ok {| risk_result := report; model_version := "1.0.0" |}
              | Raise _ => Raise (HTTPException 500)
              end) as Hshape.
  { intros self. unfold calculate_risk.
    by destruct (calculate_risk_score _ _ _ _) as [? [?|?]]. }
  split; [|intros a built; by rewrite Hshape, calculate_risk_score_outcome].
  rewrite Hshape, calculate_risk_score_outcome.
  destruct (reset_raises (scaler model0)); [by split; [|left]|].
  pose proof (simulate_fire_spread_cases (request_features request)) as Hfs.
  destruct (request_features_lookups request) as (Hs & _ & Hw & _).
  rewrite Hs, Hw in Hfs.
  destruct (_simulate_fire_spread (request_features request)) as [fs|].
  - cbv zeta.
    cbn [risk_result model_version overall_risk_score component_scores
         recommendations assessment_timestamp].
    destruct (request_scores request) as (-> & -> & -> & ->).
    destruct Hfs as (_ & Hne).
    split; [done|]. split; [done|]. split; [done|]. split; [done|].
    split; [done|]. split; [|done].
    rewrite generate_recommendations_concat.
    assert (gt (num 80) (num 60) = true) as -> by (by vm_compute).
    apply list_elem_of_here.
  - split; [done|]. right. destruct Hfs as (_ & [H|H]); [|done].
    exfalso. revert H. apply Qc_this_neq. vm_compute. discriminate.
Qed.

Lemma request_feature_vector (request : RiskCalculationRequest) :
  extract_features (request_features request)
  = [ dec 65 2; dec 45 2; dec 285 1; num 35; dec 152 1;
      request_slope request; num 180; num 500; num 2; num 5;
      num 25; dec 35 1; num 12; num 150; num 2 ].
Proof. reflexivity. Qed.

Lemma calculate_risk_state (sqrt : Qc → Qc) (model0 : WildfireRiskModel)
    (now : string) (request : RiskCalculationRequest) :
  (calculate_risk sqrt model0 now request).1
  = (calculate_risk_score sqrt model0 now (request_features request)).1.
Proof.
  unfold calculate_risk.
  by destruct (calculate_risk_score _ _ _ _) as [? [?|?]].
Qed.

(** X25: the response to a request, and the object the request leaves,
    depend on the request only through its slope: identifier, coordinates,
    vegetation density, distance to the fire station, firebreak flag and
    property size change nothing. *)
Theorem calculate_risk_reads_slope_only (sqrt : Qc → Qc)
    (model0 : WildfireRiskModel) (now : string)
    (request1 request2 : RiskCalculationRequest) :
  request_slope request1 = request_slope request2 →
  calculate_risk sqrt model0 now request1
  = calculate_risk sqrt model0 now request2.
Proof.
  intros Hslope. apply injective_projections.
  { rewrite !calculate_risk_state, !calculate_risk_score_state.
    unfold refit. by rewrite !request_feature_vector, Hslope. }
  assert (∀ request,
            (calculate_risk sqrt model0 now request).2
            = match (calculate_risk_score sqrt model0 now (request_features request)).2 with
              | Ok report => Ok {| risk_result := report; model_version := "1.0.0" |}
              | Raise _ => Raise (HTTPException 500)
              end) as Hshape.
  { intros request. unfold calculate_risk.
    by destruct (calculate_risk_score _ _ _ _) as [? [?|?]]. }
  rewrite !Hshape, !calculate_risk_score_outcome.
  destruct (request_scores request1) as (-> & -> & -> & ->).
  destruct (request_scores request2) as (-> & -> & -> & ->).
  rewrite !request_fire_spread, Hslope. reflexivity.
Qed.

Lemma calculate_risk_reads_slope_only_witness :
  calculate_risk (λ x, x) (__init__ None total) "t"
    {| property_id := "a"; lat := num 34; lon := num (-118);
       property_data :=
         Some {| vegetation_density := dec 9 1; slope_percentage := num 15;
                 distance_to_fire_station := num 40; has_firebreak := true;
                 property_size_acres := num 12 |} |}
  = calculate_risk (λ x, x) (__init__ None total) "t"
      {| property_id := "b"; lat := num 0; lon := num 0;
         property_data := None |}.
Proof.
  apply (calculate_risk_reads_slope_only (λ x, x) (__init__ None total)). reflexivity.
Defined.

(** ** What the hourly projection reads *)

Lemma foldl_pointwise {A B} (f g : A → B → A) (a : A) (l : list B) :
  (∀ x y, f x y = g x y) → foldl f a l = foldl g a l.
Proof.
  intros Hfg. revert a. induction l as [|y l IH]; intros a; [done|].
  cbn. by rewrite Hfg, IH.
Qed.

(** X26: of the weather conditions only [wind_speed] and of the terrain
    data only [slope] is read, each taken as 10 when missing: conditions
    that agree on these two give the same samples. *)
Theorem hourly_projection_reads (w w' t t' : Dict) (hours : Z) :
  get w "wind_speed" (num 10) = get w' "wind_speed" (num 10) →
  get t "slope" (num 10) = get t' "slope" (num 10) →
  spread_loop w t hours = spread_loop w' t' hours.
Proof.
  intros Hw Ht. unfold spread_loop. apply foldl_pointwise.
  intros st h. unfold spread_iteration, hourly_spread_rate.
  by rewrite Hw, Ht.
Qed.

Lemma hourly_projection_reads_witness :
  spread_loop {[ "wind_direction" := num 270; "humidity" := num 5 ]} ∅ 3
  = spread_loop {[ "wind_speed" := num 10 ]} {[ "slope" := num 10 ]} 3.
Proof.
  apply hourly_projection_reads; reflexivity.
Defined.
